(** * hello_viem: the transfer page and the permit-deposit page

    A shallow embedding of the two wagmi/viem front-end pages
    ([TransferPage] and [PermitTokenPage]) and of the helpers they
    share, followed by the properties of the specification.

    JavaScript values are modelled by the Rocq types closest to them:
    - [string] for JS strings, as their UTF-8 bytes (the pages slice ASCII
      text only);
    - [Z] for [bigint] and for integral [number]s, [Js.number] where [NaN]
      can arise;
    - [option] for values that may be [undefined];
    - [bool] for the result of a truthiness test. *)

From Stdlib Require Import ZArith String Ascii List Bool Lia.
From Stdlib Require Import DecimalString.
Import ListNotations.

Local Open Scope string_scope.
Local Open Scope Z_scope.

(* ===================================================================== *)
(** * Part I: the embedding                                                *)
(* ===================================================================== *)

(** ** JavaScript primitives used by the pages *)

Module Js.

(** [!!s] for a string: only the empty string is falsy. *)
Definition truthy_string (s : string) : bool :=
  match s with EmptyString => false | String _ _ => true end.

(** [!!s] for a value of type [string | undefined]. *)
Definition truthy_ostring (o : option string) : bool :=
  match o with Some s => truthy_string s | None => false end.

(** [!!n] for a value of type [bigint | undefined] (also used for an
    integral [number | undefined]): [undefined] and zero are falsy. *)
Definition truthy_oint (o : option Z) : bool :=
  match o with Some n => negb (n =? 0) | None => false end.

(** [a ?? b]. *)
Definition nullish {A : Type} (a : option A) (b : option A) : option A :=
  match a with Some _ => a | None => b end.

(** [a || d] for [a] of type [string | undefined]. *)
Definition or_string (a : option string) (d : string) : string :=
  match a with
  | Some (String _ _ as text) => text
  | _ => d
  end.

(** [a ?? d] with a default that is never nullish. *)
Definition nullish_or {A : Type} (a : option A) (d : A) : A :=
  match a with Some x => x | None => d end.

(** [s.slice(start)] for a non-negative [start]. *)
Fixpoint slice_from (start : nat) (s : string) : string :=
  match start, s with
  | O, _ => s
  | S n, EmptyString => EmptyString
  | S n, String _ s' => slice_from n s'
  end.

(** [s.slice(start, stop)] for non-negative indices: the characters at
    positions [start <= i < stop], clipped to the string. *)
Definition slice (start stop : nat) (s : string) : string :=
  substring start (stop - start) s.

(** A JS [number] restricted to what [Number('0x..')] can return. *)
Inductive number : Type :=
| Num (n : Z)
| NaN.

Definition hexDigit (c : ascii) : option Z :=
  let n := Z.of_nat (nat_of_ascii c) in
  if (48 <=? n) && (n <=? 57) then Some (n - 48)
  else if (97 <=? n) && (n <=? 102) then Some (n - 87)
  else if (65 <=? n) && (n <=? 70) then Some (n - 55)
  else None.

(** Value of a run of hexadecimal digits, most significant first, on top
    of [acc]; [None] as soon as a character is not a hexadecimal digit. *)
Fixpoint hexValue (acc : Z) (s : string) : option Z :=
  match s with
  | EmptyString => Some acc
  | String c s' =>
      match hexDigit c with
      | Some d => hexValue (16 * acc + d) s'
      | None => None
      end
  end.

(** The ASCII characters of [StrWhiteSpaceChar]. *)
Definition isWhiteSpace (c : ascii) : bool :=
  let n := nat_of_ascii c in
  ((9 <=? n) && (n <=? 13))%nat || (n =? 32)%nat.

(** Drops the trailing white space that [Number] ignores. *)
Fixpoint trimEnd (s : string) : string :=
  match s with
  | EmptyString => EmptyString
  | String c s' =>
      match trimEnd s' with
      | EmptyString => if isWhiteSpace c then EmptyString else String c EmptyString
      | t => String c t
      end
  end.

Fixpoint trimStart (s : string) : string :=
  match s with
  | EmptyString => EmptyString
  | String c s' => if isWhiteSpace c then trimStart s' else s
  end.

(** [s.trim()], for the ASCII white space. *)
Definition trim (s : string) : string := trimEnd (trimStart s).

(** [a === b] on values of type [number | undefined]. *)
Definition strict_eq_oint (a b : option Z) : bool :=
  match a, b with
  | Some x, Some y => x =? y
  | None, None => true
  | _, _ => false
  end.

(** [Number('0x' + digits)]: the value of the hexadecimal literal, [NaN]
    when no digit follows the prefix or when a character is not a
    hexadecimal digit. Trailing white space is ignored, as [Number] does. *)
Definition Number_0x (digits : string) : number :=
  match trimEnd digits with
  | EmptyString => NaN
  | ds => match hexValue 0 ds with Some n => Num n | None => NaN end
  end.

(** An ASCII character in lower case, as [toLowerCase] leaves it; the
    pages do not call it, the properties of [splitSig] use it to say that
    two digits differ only by their case. *)
Definition toLowerAscii (c : ascii) : ascii :=
  let n := nat_of_ascii c in
  if ((65 <=? n) && (n <=? 90))%nat then ascii_of_nat (n + 32) else c.

(** [s.replace(/\.$/, '')]: drops one dot when it is the last character. *)
Fixpoint replaceTrailingDot (s : string) : string :=
  match s with
  | EmptyString => EmptyString
  | String c EmptyString => if Ascii.eqb c "."%char then EmptyString else s
  | String c s' => String c (replaceTrailingDot s')
  end.

End Js.

(** ** The viem functions the pages call

    [parseUnits], [formatUnits] and [isAddress] belong to the viem library,
    not to this repository: the pages are verified against any
    implementation of this interface. A function that can throw returns
    [None] when it does. *)

Class Viem : Type := {
  parseUnits : string -> Z -> option Z;
  formatUnits : Z -> Z -> option string;
  isAddress : string -> bool
}.

(** [value.toString()] for a [bigint]. *)
Definition bigintToString (n : Z) : string :=
  NilZero.string_of_int (Z.to_int n).

(** ** Errors, promises and the calls into wagmi *)

Module Wagmi.

(** A thrown value, seen through the properties the handlers read:
    [e instanceof BaseError], [e.shortMessage], [e.message], [String(e)]. *)
Record JsError : Type := {
  isBaseError : bool;
  shortMessage : option string;
  message : option string;
  asString : string
}.

(** [new Error(msg)]. *)
Definition Error (msg : string) : JsError :=
  {| isBaseError := false; shortMessage := None; message := Some msg;
     asString := "Error: " ++ msg |}.

Inductive Abi : Type := permitTokenAbi | bankAbi.

Inductive Arg : Type :=
| ArgString (s : string)
| ArgBigInt (n : Z)
| ArgNumber (n : Js.number).

Module Contract.
(** Parameters of [simulateContract] and [writeContractAsync]; the
    [request] returned by a simulation has the same shape. *)
Record Parameters : Type := {
  address : string;
  abi : Abi;
  functionName : string;
  args : list Arg;
  account : option string
}.
End Contract.

Module TypedData.
Record Domain : Type := {
  name : string;
  version : string;
  chainId : Z;
  verifyingContract : string
}.

Record Field : Type := { fieldName : string; fieldType : string }.

Record Message : Type := {
  owner : option string;
  spender : string;
  value : Z;
  nonce : Z;
  deadline : Z
}.
End TypedData.

Module SignTypedData.
Record Parameters : Type := {
  account : option string;
  domain : TypedData.Domain;
  types : list (string * list TypedData.Field);
  primaryType : string;
  message : TypedData.Message
}.
End SignTypedData.

Module VerifyTypedData.
Record Parameters : Type := {
  address : option string;
  domain : TypedData.Domain;
  types : list (string * list TypedData.Field);
  primaryType : string;
  message : TypedData.Message;
  signature : string
}.
End VerifyTypedData.

(** How an awaited promise settles. *)
Inductive Outcome (X : Type) : Type :=
| Resolved (x : X)
| Rejected (e : JsError).
Arguments Resolved {X} x.
Arguments Rejected {X} e.

(** The asynchronous calls of the two handlers, indexed by the type of
    the value they resolve to. [refetchNonces] resolves to the [data]
    field of the query result. A missing public client surfaces as the
    rejection (a [TypeError]) of the call made on it. *)
Inductive Call : Type -> Type :=
| refetchNonces : Call (option Z)
| getChainId : Call Z
| signTypedDataAsync (p : SignTypedData.Parameters) : Call string
| verifyTypedData (p : VerifyTypedData.Parameters) : Call bool
| simulateContract (p : Contract.Parameters) : Call Contract.Parameters
| writeContractAsync (p : Contract.Parameters) : Call string.

(** The synchronous effects of the handlers on the page and the console. *)
Inductive Effect : Type :=
| setHash (txHash : string)
| setStatus (status : string)
| alert (msg : option string)
| consoleError (e : JsError).

(** Bodies of [async] functions: a tree of calls, clock reads and
    effects ending in a [return] or a [throw]. *)
Inductive Async (A : Type) : Type :=
| Ret (a : A)
| Throw (e : JsError)
| Await {X : Type} (c : Call X) (k : Outcome X -> Async A)
| DateNow (k : Z -> Async A)
| Perform (u : Effect) (k : Async A).
Arguments Ret {A} a.
Arguments Throw {A} e.
Arguments Await {A X} c k.
Arguments DateNow {A} k.
Arguments Perform {A} u k.

Fixpoint bind {A B : Type} (p : Async A) (f : A -> Async B) : Async B :=
  match p with
  | Ret a => f a
  | Throw e => Throw e
  | Await c k => Await c (fun o => bind (k o) f)
  | DateNow k => DateNow (fun t => bind (k t) f)
  | Perform u k => Perform u (bind k f)
  end.

(** [try { p } catch (e) { handler e }]. *)
Fixpoint try_catch {A : Type} (p : Async A) (handler : JsError -> Async A)
  : Async A :=
  match p with
  | Ret a => Ret a
  | Throw e => handler e
  | Await c k => Await c (fun o => try_catch (k o) handler)
  | DateNow k => DateNow (fun t => try_catch (k t) handler)
  | Perform u k => Perform u (try_catch k handler)
  end.

(** [await c]: the resolved value, or the rejection rethrown. *)
Definition await {X : Type} (c : Call X) : Async X :=
  Await c (fun o => match o with
                    | Resolved x => Ret x
                    | Rejected e => Throw e
                    end).

Definition now : Async Z := DateNow (fun t => Ret t).

Definition perform (u : Effect) : Async unit := Perform u (Ret tt).

(** What an observer of the page sees of one handler run. *)
Inductive Event : Type :=
| ERefetchNonces (o : Outcome (option Z))
| EGetChainId (o : Outcome Z)
| ESignTypedData (p : SignTypedData.Parameters) (o : Outcome string)
| EVerifyTypedData (p : VerifyTypedData.Parameters) (o : Outcome bool)
| ESimulateContract (p : Contract.Parameters) (o : Outcome Contract.Parameters)
| EWriteContract (p : Contract.Parameters) (o : Outcome string)
| EDateNow (ms : Z)
| EEffect (u : Effect).

Definition observe {X : Type} (c : Call X) : Outcome X -> Event :=
  match c in Call X return Outcome X -> Event with
  | refetchNonces => ERefetchNonces
  | getChainId => EGetChainId
  | signTypedDataAsync p => ESignTypedData p
  | verifyTypedData p => EVerifyTypedData p
  | simulateContract p => ESimulateContract p
  | writeContractAsync p => EWriteContract p
  end.

(** The environment of a handler: the wallet, the RPC node and the
    clock. It answers every call, possibly with a rejection, and may
    change with each answer. *)
Class World (W : Type) : Type := {
  settle : forall X : Type, Call X -> W -> Outcome X * W;
  clock : W -> Z * W
}.

Inductive Completion (A : Type) : Type :=
| Returned (a : A)
| Threw (e : JsError).
Arguments Returned {A} a.
Arguments Threw {A} e.

Record Run (A W : Type) : Type := {
  trace : list Event;
  completion : Completion A;
  world : W
}.
Arguments trace {A W} _.
Arguments completion {A W} _.
Arguments world {A W} _.

Definition logged {A W : Type} (ev : Event) (r : Run A W) : Run A W :=
  {| trace := ev :: trace r; completion := completion r; world := world r |}.

(** Runs a handler body to completion in a world. *)
Fixpoint run {A W : Type} `{World W} (p : Async A) (w : W) : Run A W :=
  match p with
  | Ret a => {| trace := []; completion := Returned a; world := w |}
  | Throw e => {| trace := []; completion := Threw e; world := w |}
  | Await c k =>
      let (o, w') := settle _ c w in
      logged (observe c o) (run (k o) w')
  | DateNow k =>
      let (ms, w') := clock w in
      logged (EDateNow ms) (run (k ms) w')
  | Perform u k => logged (EEffect u) (run k w)
  end.

(** The error of a call that was rejected. *)
Definition rejection (ev : Event) : option JsError :=
  match ev with
  | ERefetchNonces (Rejected e) | EGetChainId (Rejected e)
  | ESignTypedData _ (Rejected e) | EVerifyTypedData _ (Rejected e)
  | ESimulateContract _ (Rejected e) | EWriteContract _ (Rejected e) => Some e
  | _ => None
  end.

(** Events past the local check of a permit: a simulation or a broadcast. *)
Definition isSubmission (ev : Event) : bool :=
  match ev with
  | ESimulateContract _ _ | EWriteContract _ _ => true
  | _ => false
  end.

Definition isSignRequest (ev : Event) : bool :=
  match ev with ESignTypedData _ _ => true | _ => false end.

Definition isSimulation (ev : Event) : bool :=
  match ev with ESimulateContract _ _ => true | _ => false end.

Definition isBroadcast (ev : Event) : bool :=
  match ev with EWriteContract _ _ => true | _ => false end.



End Wagmi.

Declare Scope async_scope.
Delimit Scope async_scope with async.
Notation "x <- p ;; q" := (Wagmi.bind p (fun x => q))
  (at level 61, p at next level, right associativity) : async_scope.
Notation "p ;; q" := (Wagmi.bind p (fun _ => q))
  (at level 61, right associativity) : async_scope.
Notation "' pat <- p ;; q" :=
  (Wagmi.bind p (fun x => match x with pat => q end))
  (at level 61, pat pattern, p at next level, right associativity) : async_scope.

(** ** The transfer page ([TransferPage]) *)

Module TransferPage.

Definition PERMIT_TOKEN_ADDRESS : string :=
  "0x042eB0c69FC25678B0d399984c17959875f7018c".

Definition explorerBaseFromChainId (chainId : option Z) : option string :=
  match chainId with
  | Some 1 => Some "https://etherscan.io"
  | Some 11155111 => Some "https://sepolia.etherscan.io"
  | Some 10 => Some "https://optimistic.etherscan.io"
  | Some 8453 => Some "https://basescan.org"
  | Some 42161 => Some "https://arbiscan.io"
  | Some 137 => Some "https://polygonscan.com"
  | _ => None
  end.

(** The [data] of the [decimals] read: [undefined] until the read returns,
    then the JS number viem decodes a [uint8] to. [null] is listed because
    the source guards against it. *)
Inductive ReadData : Type :=
| Undefined
| Null
| NumberData (n : Z).

(** What the hooks and the [useState] cells hold in one render. *)
Record Hooks : Type := {
  address : option string;        (* useAccount().address *)
  chainId : option Z;             (* useChainId() *)
  toAddress : string;
  rawAmount : string;
  hash : option string;
  tokenDecimals : ReadData;
  tokenBalance : option Z;        (* bigint | undefined *)
  isWritePending : bool;
  isConfirming : bool;
  isConfirmed : bool;
  writeError : option Wagmi.JsError;
  receiptError : option Wagmi.JsError
}.

(** What a click on Max does: nothing without a balance, a call of
    [setRawAmount], or the exception of [formatUnits], which the handler
    does not catch. *)
Inductive MaxClick : Type :=
| MaxIgnored
| MaxThrew
| MaxSet (text : string).

(** The render that follows [setRawAmount(text)], the hooks being otherwise
    as they were. *)
Definition setRawAmount (h : Hooks) (text : string) : Hooks :=
  {| address := address h;
     chainId := chainId h;
     toAddress := toAddress h;
     rawAmount := text;
     hash := hash h;
     tokenDecimals := tokenDecimals h;
     tokenBalance := tokenBalance h;
     isWritePending := isWritePending h;
     isConfirming := isConfirming h;
     isConfirmed := isConfirmed h;
     writeError := writeError h;
     receiptError := receiptError h |}.

Section Page.
Context {viem : Viem}.
Variable h : Hooks.

Definition decimals : Z :=
  match tokenDecimals h with
  | NumberData n => n              (* typeof tokenDecimals === 'number' *)
  | Undefined | Null => 18         (* Number(tokenDecimals ?? 18) *)
  end.

Definition formattedBalance : string :=
  match tokenBalance h with
  | None => "—"
  | Some balance =>
      match formatUnits balance decimals with
      | Some text => text
      | None => bigintToString balance
      end
  end.

Definition amountAsBigInt : option Z :=
  if negb (Js.truthy_string (rawAmount h)) then None
  else parseUnits (rawAmount h) decimals.

Definition amountError : string :=
  if negb (Js.truthy_string (rawAmount h)) then ""
  else match amountAsBigInt with
       | None => "Invalid amount format"
       | Some amount =>
           if amount <=? 0 then "Amount must be greater than 0"
           else match tokenBalance h with
                | Some balance =>
                    if amount >? balance then "Insufficient balance" else ""
                | None => ""
                end
       end.

Definition addressError : string :=
  if negb (Js.truthy_string (toAddress h)) then ""
  else if isAddress (toAddress h) then "" else "Invalid address".

Definition canSubmit : bool :=
  Js.truthy_ostring (address h) &&
  Js.truthy_oint (chainId h) &&
  Js.truthy_oint amountAsBigInt &&
  negb (Js.truthy_string amountError) &&
  isAddress (toAddress h) &&
  negb (isWritePending h) &&
  negb (isConfirming h).

Definition explorerBase : option string :=
  explorerBaseFromChainId (chainId h).

(** The [disabled] attribute of the Transfer button. *)
Definition submitDisabled : bool := negb canSubmit.

(** The text under the recipient input: [addressError && <div>..</div>]. *)
Definition shownAddressError : option string :=
  if Js.truthy_string addressError then Some addressError else None.

(** The text under the amount input: [amountError && <div>..</div>]. *)
Definition shownAmountError : option string :=
  if Js.truthy_string amountError then Some amountError else None.

(** [writeError && <p>Transaction Error: {writeError.message}</p>]. *)
Definition shownWriteError : option string :=
  match writeError h with
  | Some e => Some ("Transaction Error: " ++ Js.nullish_or (Wagmi.message e) "")
  | None => None
  end.

(** [receiptError && <p>Receipt Error: {receiptError.message}</p>]. *)
Definition shownReceiptError : option string :=
  match receiptError h with
  | Some e => Some ("Receipt Error: " ++ Js.nullish_or (Wagmi.message e) "")
  | None => None
  end.

(** The [href] of the "View on explorer" link, when the link is rendered:
    [isConfirmed && hash && (.. explorerBase && <a href=..>)]. *)
Definition explorerLink : option string :=
  if isConfirmed h && Js.truthy_ostring (hash h) then
    match explorerBase, hash h with
    | Some base, Some txHash =>
        if Js.truthy_string base then Some (base ++ "/tx/" ++ txHash) else None
    | _, _ => None
    end
  else None.

(** [err?.shortMessage ?? err?.message ?? 'Transaction rejected or failed']. *)
Definition transferErrorStatus (err : Wagmi.JsError) : string :=
  Js.nullish_or
    (Js.nullish (Wagmi.shortMessage err) (Wagmi.message err))
    "Transaction rejected or failed".

Definition transferCall (amount : Z) : Wagmi.Contract.Parameters :=
  {| Wagmi.Contract.address := PERMIT_TOKEN_ADDRESS;
     Wagmi.Contract.abi := Wagmi.permitTokenAbi;
     Wagmi.Contract.functionName := "transfer";
     Wagmi.Contract.args := [Wagmi.ArgString (toAddress h); Wagmi.ArgBigInt amount];
     Wagmi.Contract.account := None |}.

Definition handleTransfer : Wagmi.Async unit :=
  match canSubmit, amountAsBigInt with
  | true, Some amount =>
      Wagmi.try_catch
        (Wagmi.perform (Wagmi.setStatus "Waiting for wallet confirmation…") ;;
         txHash <- Wagmi.await (Wagmi.writeContractAsync (transferCall amount)) ;;
         Wagmi.perform (Wagmi.setHash txHash) ;;
         Wagmi.perform
           (Wagmi.setStatus "Transaction sent. Waiting for confirmations…"))%async
        (fun err => Wagmi.perform (Wagmi.setStatus (transferErrorStatus err)))
  | _, _ => Wagmi.Ret tt
  end.

Definition handleMax : MaxClick :=
  match tokenBalance h with
  | None => MaxIgnored
  | Some balance =>
      match formatUnits balance decimals with
      | Some text => MaxSet text
      | None => MaxThrew
      end
  end.

(** The [disabled] attribute of the Max button: [tokenBalance == null]. *)
Definition maxDisabled : bool :=
  match tokenBalance h with None => true | Some _ => false end.

(** The text of the Transfer button. *)
Definition submitLabel : string :=
  if isWritePending h then "Check Wallet…"
  else if isConfirming h then "Processing…"
  else "Transfer".

End Page.

(** *** The runs of [handleTransfer] past its guard *)

Section Shapes.
Variable h : Hooks.
Variable amount : Z.

Inductive TransferTrace : list Wagmi.Event -> Prop :=
| transfer_failed (e : Wagmi.JsError) :
    TransferTrace
      [Wagmi.EEffect (Wagmi.setStatus "Waiting for wallet confirmation…");
       Wagmi.EWriteContract (transferCall h amount) (Wagmi.Rejected e);
       Wagmi.EEffect (Wagmi.setStatus (transferErrorStatus e))]
| transfer_sent (txHash : string) :
    TransferTrace
      [Wagmi.EEffect (Wagmi.setStatus "Waiting for wallet confirmation…");
       Wagmi.EWriteContract (transferCall h amount) (Wagmi.Resolved txHash);
       Wagmi.EEffect (Wagmi.setHash txHash);
       Wagmi.EEffect
         (Wagmi.setStatus "Transaction sent. Waiting for confirmations…")].

End Shapes.

End TransferPage.

(** ** The permit-deposit page ([PermitTokenPage]) *)

Module PermitTokenPage.

Import Wagmi.

Definition PERMIT_TOKEN_ADDRESS : string :=
  "0x042eB0c69FC25678B0d399984c17959875f7018c".
Definition BANK_CONTRACT_ADDRESS : string :=
  "0xA09A259Bd1516E1848337A592f19Ba08870f8FD2".
Definition EXPECTED_CHAIN_ID : option Z := Some 11155111.

Definition explorerBaseFromChainId (chainId : option Z) : option string :=
  match chainId with
  | Some 1 => Some "https://etherscan.io"
  | Some 11155111 => Some "https://sepolia.etherscan.io"
  | Some 10 => Some "https://optimistic.etherscan.io"
  | Some 8453 => Some "https://basescan.org"
  | Some 42161 => Some "https://arbiscan.io"
  | Some 137 => Some "https://polygonscan.com"
  | _ => None
  end.

Record Signature : Type := { v : Js.number; r : string; s : string }.

(** [splitSig(signature)]: parses [0x{r}{s}{v}], mapping a y-parity of
    0 or 1 to 27 or 28. *)
Definition splitSig (signature : string) : Signature :=
  let sig := Js.slice_from 2 signature in
  let r := "0x" ++ Js.slice 0 64 sig in
  let s := "0x" ++ Js.slice 64 128 sig in
  let v := Js.Number_0x (Js.slice 128 130 sig) in
  let v := match v with
           | Js.Num n => if (n =? 0) || (n =? 1) then Js.Num (n + 27) else v
           | Js.NaN => v
           end in
  {| v := v; r := r; s := s |}.

(** The [data] of the [decimals] read, as on the transfer page. *)
Inductive ReadData : Type :=
| Undefined
| Null
| NumberData (n : Z).

(** The [data] of [useBalance]. *)
Record Balance : Type := {
  value : Z;
  formatted : string;
  symbol : string
}.

(** What the hooks and the [useState] cells hold in one render. *)
Record Hooks : Type := {
  address : option string;        (* useAccount().address *)
  isConnected : bool;             (* useAccount().isConnected *)
  chainId : option Z;             (* useChainId() *)
  depositAmount : string;
  hash : option string;
  tokenName : option string;
  tokenSymbol : option string;
  tokenDecimalsData : ReadData;
  tokenBalanceData : option Balance;
  bankDepositRaw : option Z;
  nonces : option Z;
  isWritePending : bool;
  isConfirming : bool;
  isConfirmed : bool;
  writeError : option JsError;
  receiptError : option JsError
}.

(** A value interpolated in a template literal. *)
Definition interpolate (o : option string) : string :=
  match o with Some text => text | None => "undefined" end.

(** [onChange] of the amount input: the value kept is [value.trim()]. *)
Definition onChangeAmount (value : string) : string := Js.trim value.

(** [onBlur] of the amount input: the argument of [setDepositAmount] when
    it is called, that is when dropping a final dot changes the value. *)
Definition onBlurAmount (value : string) : option string :=
  let v := Js.replaceTrailingDot value in
  if String.eqb v value then None else Some v.

Section Page.
Context {viem : Viem}.
Variable h : Hooks.

Definition explorerBase : option string :=
  explorerBaseFromChainId (chainId h).

Definition correctNetwork : bool :=
  if Js.truthy_oint EXPECTED_CHAIN_ID
  then Js.strict_eq_oint (chainId h) EXPECTED_CHAIN_ID
  else true.

Definition decimals : Z :=
  match tokenDecimalsData h with
  | NumberData n => n              (* typeof tokenDecimalsData === 'number' *)
  | Undefined | Null => 18         (* Number(tokenDecimalsData ?? 18) *)
  end.

Definition formattedTokenBalance : string :=
  match tokenBalanceData h with
  | Some balance => formatted balance ++ " " ++ symbol balance
  | None => "—"
  end.

Definition formattedBankDeposit : string :=
  match bankDepositRaw h with
  | None => "—"
  | Some raw =>
      match formatUnits raw decimals with
      | Some text => Js.trim (text ++ " " ++ Js.nullish_or (tokenSymbol h) "")
      | None => bigintToString raw
      end
  end.

Definition depositAmountBigInt : option Z :=
  if negb (Js.truthy_string (depositAmount h)) then None
  else parseUnits (depositAmount h) decimals.

Definition depositAmountError : string :=
  if negb (Js.truthy_string (depositAmount h)) then ""
  else match depositAmountBigInt with
       | None => "Invalid amount format"
       | Some amount =>
           if amount <=? 0 then "Amount must be greater than 0"
           else match tokenBalanceData h with
                | Some balance =>
                    if amount >? value balance then "Insufficient balance" else ""
                | None => ""
                end
       end.

Definition baseGuard : bool :=
  isConnected h && correctNetwork &&
  negb (isWritePending h) && negb (isConfirming h).

Definition canDeposit : bool :=
  baseGuard &&
  Js.truthy_oint depositAmountBigInt &&
  negb (Js.truthy_string depositAmountError).

(** [e instanceof BaseError ? (e.shortMessage ?? e.message) : e.message]. *)
Definition hookErrorMessage (e : JsError) : option string :=
  if isBaseError e then Js.nullish (shortMessage e) (message e)
  else message e.

Definition transactionStatus : string :=
  if isConfirming h then "Confirming transaction…"
  else if isConfirmed h then "Transaction successful!"
  else match writeError h with
       | Some e => "Transaction Error: " ++ interpolate (hookErrorMessage e)
       | None =>
           match receiptError h with
           | Some e => "Receipt Error: " ++ interpolate (hookErrorMessage e)
           | None => ""
           end
       end.

Definition permitTypes : list (string * list TypedData.Field) :=
  [("Permit",
    [ {| TypedData.fieldName := "owner"; TypedData.fieldType := "address" |};
      {| TypedData.fieldName := "spender"; TypedData.fieldType := "address" |};
      {| TypedData.fieldName := "value"; TypedData.fieldType := "uint256" |};
      {| TypedData.fieldName := "nonce"; TypedData.fieldType := "uint256" |};
      {| TypedData.fieldName := "deadline"; TypedData.fieldType := "uint256" |} ])].

(** The [nonce] of the message: [latest.data ?? nonces ?? 0n]. *)
Definition permitNonce (latest : option Z) : Z :=
  Js.nullish_or (Js.nullish latest (nonces h)) 0.

(** The [deadline] of the message, twenty minutes after the clock read:
    [BigInt(Math.floor(Date.now() / 1000) + 60 * 20)]. *)
Definition permitDeadline (ms : Z) : Z :=
  let nowSec := ms / 1000 in
  nowSec + 60 * 20.

Definition permitDomain (currentChainId : Z) : TypedData.Domain :=
  {| TypedData.name := Js.or_string (tokenName h) "PermitToken";
     TypedData.version := "1";
     TypedData.chainId := currentChainId;
     TypedData.verifyingContract := PERMIT_TOKEN_ADDRESS |}.

Definition permitMessage (value nonce deadline : Z) : TypedData.Message :=
  {| TypedData.owner := address h;
     TypedData.spender := BANK_CONTRACT_ADDRESS;
     TypedData.value := value;
     TypedData.nonce := nonce;
     TypedData.deadline := deadline |}.

Definition signParameters (domain : TypedData.Domain)
  (message : TypedData.Message) : SignTypedData.Parameters :=
  {| SignTypedData.account := address h;
     SignTypedData.domain := domain;
     SignTypedData.types := permitTypes;
     SignTypedData.primaryType := "Permit";
     SignTypedData.message := message |}.

Definition verifyParameters (domain : TypedData.Domain)
  (message : TypedData.Message) (signature : string)
  : VerifyTypedData.Parameters :=
  {| VerifyTypedData.address := address h;
     VerifyTypedData.domain := domain;
     VerifyTypedData.types := permitTypes;
     VerifyTypedData.primaryType := "Permit";
     VerifyTypedData.message := message;
     VerifyTypedData.signature := signature |}.

Definition verificationFailed : JsError :=
  Error
    "Local signature verification failed: signer != owner (ERC2612InvalidSigner)".

Definition signPermit (value : Z) : Async (string * Z) :=
  (latest <- await refetchNonces ;;
   let nonce := permitNonce latest in
   ms <- now ;;
   let deadline := permitDeadline ms in
   currentChainId <- await getChainId ;;
   let domain := permitDomain currentChainId in
   let message := permitMessage value nonce deadline in
   signature <- await (signTypedDataAsync (signParameters domain message)) ;;
   ok <- await (verifyTypedData (verifyParameters domain message signature)) ;;
   if negb ok then Throw verificationFailed
   else Ret (signature, deadline))%async.

Definition depositCall (amount deadline : Z) (sig : Signature)
  : Contract.Parameters :=
  {| Contract.address := BANK_CONTRACT_ADDRESS;
     Contract.abi := bankAbi;
     Contract.functionName := "depositWithPermit";
     Contract.args := [ArgBigInt amount; ArgBigInt deadline;
                       ArgNumber (v sig); ArgString (r sig); ArgString (s sig)];
     Contract.account := address h |}.

(** The message the [catch] block of [handleDepositWithPermit] alerts:
    [e instanceof BaseError ? (e.shortMessage ?? e.message)
                            : (e?.message ?? String(e))]. *)
Definition depositErrorMessage (e : JsError) : option string :=
  if isBaseError e then Js.nullish (shortMessage e) (message e)
  else Some (Js.nullish_or (message e) (asString e)).

Definition handleDepositWithPermit : Async unit :=
  if negb canDeposit || negb (Js.truthy_oint depositAmountBigInt) then Ret tt
  else
    match depositAmountBigInt with
    | None => Ret tt
    | Some amount =>
        try_catch
          ('(signature, deadline) <- signPermit amount ;;
           let sig := splitSig signature in
           request <- await (simulateContract (depositCall amount deadline sig)) ;;
           txHash <- await (writeContractAsync request) ;;
           perform (setHash txHash))%async
          (fun e =>
             let msg := depositErrorMessage e in
             (perform (consoleError e) ;;
              perform (alert msg))%async)
    end.

(** The [disabled] attribute of the deposit button. *)
Definition depositDisabled : bool := negb canDeposit.

(** The text under the amount input. The input, the button and the status
    block all sit inside [{isConnected && (...)}]. *)
Definition shownDepositAmountError : option string :=
  if isConnected h && Js.truthy_string depositAmountError
  then Some depositAmountError else None.

(** Whether the status block is rendered: inside [{isConnected && (...)}],
    [(transactionStatus || (isConfirmed && hash && explorerBase)) && (...)]. *)
Definition statusBlockShown : bool :=
  isConnected h &&
  (Js.truthy_string transactionStatus ||
   (isConfirmed h && Js.truthy_ostring (hash h) && Js.truthy_ostring explorerBase)).

(** The status line of the block: [transactionStatus && <p>Status: ..</p>]. *)
Definition shownStatus : option string :=
  if statusBlockShown && Js.truthy_string transactionStatus
  then Some ("Status: " ++ transactionStatus) else None.

(** The [href] of the "View on explorer" link, when the link is rendered:
    inside the status block, [isConfirmed && hash && explorerBase && <a href=..>]. *)
Definition explorerLink : option string :=
  if statusBlockShown && (isConfirmed h && Js.truthy_ostring (hash h)) then
    match explorerBase, hash h with
    | Some base, Some txHash =>
        if Js.truthy_string base then Some (base ++ "/tx/" ++ txHash) else None
    | _, _ => None
    end
  else None.

(** The text of the deposit button. *)
Definition depositLabel : string :=
  if isWritePending h then "Check Wallet…"
  else if isConfirming h then "Processing…"
  else "Deposit with Permit".

End Page.

(** *** The runs of [handleDepositWithPermit] past its guard *)

Section Shapes.
Variable h : Hooks.
Variable amount : Z.

(** What the [catch] block does with the error it receives. *)
Definition report (e : JsError) : list Event :=
  [EEffect (consoleError e); EEffect (alert (depositErrorMessage e))].

(** The reads that precede the signing request. *)
Definition prepared (latest : option Z) (ms currentChainId : Z) : list Event :=
  [ERefetchNonces (Resolved latest); EDateNow ms;
   EGetChainId (Resolved currentChainId)].

Definition signed (latest : option Z) (ms currentChainId : Z)
  (signature : string) : Event :=
  ESignTypedData
    (signParameters h (permitDomain h currentChainId)
       (permitMessage h amount (permitNonce h latest) (permitDeadline ms)))
    (Resolved signature).

Definition verified (latest : option Z) (ms currentChainId : Z)
  (signature : string) (o : Outcome bool) : Event :=
  EVerifyTypedData
    (verifyParameters h (permitDomain h currentChainId)
       (permitMessage h amount (permitNonce h latest) (permitDeadline ms))
       signature)
    o.

Definition simulated (ms : Z) (signature : string)
  (o : Outcome Contract.Parameters) : Event :=
  ESimulateContract
    (depositCall h amount (permitDeadline ms) (splitSig signature)) o.

Inductive DepositTrace : list Event -> Prop :=
| nonces_failed e :
    DepositTrace (ERefetchNonces (Rejected e) :: report e)
| chain_failed latest ms e :
    DepositTrace
      ([ERefetchNonces (Resolved latest); EDateNow ms;
        EGetChainId (Rejected e)] ++ report e)
| sign_failed latest ms cid e :
    DepositTrace
      (prepared latest ms cid ++
       [ESignTypedData
          (signParameters h (permitDomain h cid)
             (permitMessage h amount (permitNonce h latest) (permitDeadline ms)))
          (Rejected e)] ++ report e)
| verify_failed latest ms cid sig e :
    DepositTrace
      (prepared latest ms cid ++
       [signed latest ms cid sig; verified latest ms cid sig (Rejected e)] ++
       report e)
| verify_refused latest ms cid sig :
    DepositTrace
      (prepared latest ms cid ++
       [signed latest ms cid sig; verified latest ms cid sig (Resolved false)] ++
       report verificationFailed)
| simulate_failed latest ms cid sig e :
    DepositTrace
      (prepared latest ms cid ++
       [signed latest ms cid sig; verified latest ms cid sig (Resolved true);
        simulated ms sig (Rejected e)] ++ report e)
| write_failed latest ms cid sig request e :
    DepositTrace
      (prepared latest ms cid ++
       [signed latest ms cid sig; verified latest ms cid sig (Resolved true);
        simulated ms sig (Resolved request);
        EWriteContract request (Rejected e)] ++ report e)
| submitted latest ms cid sig request txHash :
    DepositTrace
      (prepared latest ms cid ++
       [signed latest ms cid sig; verified latest ms cid sig (Resolved true);
        simulated ms sig (Resolved request);
        EWriteContract request (Resolved txHash);
        EEffect (setHash txHash)]).

End Shapes.

End PermitTokenPage.

(** ** A concrete implementation of the interfaces

    The instances below stand for viem, the wallet and the RPC node when a
    property is exhibited on a concrete render. The properties themselves
    are proved for every implementation. *)

Module Sample.

Import Wagmi.

Definition decimalDigit (c : ascii) : option Z :=
  let n := Z.of_nat (nat_of_ascii c) in
  if (48 <=? n) && (n <=? 57) then Some (n - 48) else None.

(** Reads decimal digits up to the end or to the first ['.']; returns the
    value read, the number of digits and what follows the dot. *)
Fixpoint readDigits (acc : Z) (count : nat) (s : string)
  : option (Z * nat * option string) :=
  match s with
  | EmptyString => Some (acc, count, None)
  | String c s' =>
      if Ascii.eqb c "."%char then Some (acc, count, Some s')
      else match decimalDigit c with
           | Some d => readDigits (10 * acc + d) (S count) s'
           | None => None
           end
  end.

Definition parseUnsigned (s : string) (decimals : Z) : option Z :=
  match readDigits 0 0 s with
  | Some (integer, _, None) => Some (integer * 10 ^ decimals)
  | Some (integer, _, Some rest) =>
      match readDigits 0 0 rest with
      | Some (fraction, len, None) =>
          if Z.of_nat len <=? decimals
          then Some (integer * 10 ^ decimals
                     + fraction * 10 ^ (decimals - Z.of_nat len))
          else None
      | _ => None
      end
  | None => None
  end.

(** Decimal literals with an optional sign and at most [decimals]
    fraction digits. *)
Definition sampleParseUnits (s : string) (decimals : Z) : option Z :=
  match s with
  | String "-"%char s' => option_map Z.opp (parseUnsigned s' decimals)
  | _ => parseUnsigned s decimals
  end.

Fixpoint zeros (n : nat) : string :=
  match n with O => EmptyString | S n' => String "0"%char (zeros n') end.

Fixpoint stripZeros (s : string) : string :=
  match s with
  | EmptyString => EmptyString
  | String c s' =>
      match stripZeros s' with
      | EmptyString => if Ascii.eqb c "0"%char then EmptyString else String c EmptyString
      | t => String c t
      end
  end.

Definition sampleFormatUnits (value decimals : Z) : option string :=
  if decimals <? 0 then None
  else
    let scale := 10 ^ decimals in
    let integer := bigintToString (Z.abs value / scale) in
    let digits := bigintToString (Z.abs value mod scale) in
    let padded :=
      zeros (Z.to_nat decimals - String.length digits) ++ digits in
    let fraction := if decimals =? 0 then "" else stripZeros padded in
    Some ((if value <? 0 then "-" else "") ++ integer ++
          (if Js.truthy_string fraction then "." ++ fraction else "")).

Fixpoint allHex (s : string) : bool :=
  match s with
  | EmptyString => true
  | String c s' =>
      match Js.hexDigit c with Some _ => allHex s' | None => false end
  end.

(** The shape test of an address: [0x] and forty hexadecimal digits. *)
Definition sampleIsAddress (s : string) : bool :=
  match s with
  | String "0"%char (String "x"%char body) =>
      (String.length body =? 40)%nat && allHex body
  | _ => false
  end.

#[export] Instance viem : Viem := {
  parseUnits := sampleParseUnits;
  formatUnits := sampleFormatUnits;
  isAddress := sampleIsAddress
}.

Definition alice : string := "0x70997970C51812dc3A010C7d01b50e0d17dc79C8".
Definition bob : string := "0x01BF49D75f2b73A2FDEFa7664AEF22C86c5Be3df".

Definition sampleR : string :=
  "1111111111111111111111111111111111111111111111111111111111111111".
Definition sampleS : string :=
  "2222222222222222222222222222222222222222222222222222222222222222".
Definition sampleSignature : string := "0x" ++ sampleR ++ sampleS ++ "01".

Definition sampleTxHash : string :=
  "0x3333333333333333333333333333333333333333333333333333333333333333".

Definition userRejected : JsError :=
  {| isBaseError := true;
     shortMessage := Some "User rejected the request.";
     message := Some "User rejected the request. Details: denied signature";
     asString := "UserRejectedRequestError: User rejected the request." |}.

(** Three wallets: one that signs with the connected account, one that
    signs with another key, one whose user declines every request. *)
Inductive Wallet : Type := Cooperative | WrongSigner | Declining.

Definition sampleSettle (X : Type) (c : Call X) (w : Wallet)
  : Outcome X * Wallet :=
  match c in Call X return Outcome X * Wallet with
  | refetchNonces => (Resolved (Some 3), w)
  | getChainId => (Resolved 11155111, w)
  | signTypedDataAsync _ =>
      match w with
      | Declining => (Rejected userRejected, w)
      | _ => (Resolved sampleSignature, w)
      end
  | verifyTypedData _ =>
      (Resolved match w with WrongSigner => false | _ => true end, w)
  | simulateContract p => (Resolved p, w)
  | writeContractAsync _ =>
      match w with
      | Declining => (Rejected userRejected, w)
      | _ => (Resolved sampleTxHash, w)
      end
  end.

#[export] Instance wallet : World Wallet := {
  settle := sampleSettle;
  clock := fun w => (1700000000999, w)
}.

(** Renders of the transfer page for the connected account [alice] with a
    balance of two tokens. *)
Definition transferRender (recipient amount : string) (chain : Z)
  (decimalsData : TransferPage.ReadData) (confirmed : option string)
  : TransferPage.Hooks :=
  {| TransferPage.address := Some alice;
     TransferPage.chainId := Some chain;
     TransferPage.toAddress := recipient;
     TransferPage.rawAmount := amount;
     TransferPage.hash := confirmed;
     TransferPage.tokenDecimals := decimalsData;
     TransferPage.tokenBalance := Some 2000000000000000000;
     TransferPage.isWritePending := false;
     TransferPage.isConfirming := false;
     TransferPage.isConfirmed :=
       match confirmed with Some _ => true | None => false end;
     TransferPage.writeError := None;
     TransferPage.receiptError := None |}.

(** Ready to submit. *)
Definition transferReady : TransferPage.Hooks :=
  transferRender bob "1.5" 11155111 (TransferPage.NumberData 18) None.

(** Nothing typed yet. *)
Definition transferPristine : TransferPage.Hooks :=
  transferRender "" "" 11155111 (TransferPage.NumberData 18) None.

(** The [decimals] read has not returned. *)
Definition transferLoading : TransferPage.Hooks :=
  transferRender bob "1.5" 11155111 TransferPage.Undefined None.

(** A recipient that is not an address. *)
Definition transferBadRecipient : TransferPage.Hooks :=
  transferRender "0x1234" "1.5" 11155111 (TransferPage.NumberData 18) None.

(** A confirmed transaction on the local foundry chain. *)
Definition transferOnFoundry : TransferPage.Hooks :=
  transferRender bob "1.5" 31337 (TransferPage.NumberData 18) (Some sampleTxHash).

(** Renders of the permit page for the connected account [alice] with a
    balance of two tokens. *)
Definition permitRender (amount : string) (chain : Z)
  (decimalsData : PermitTokenPage.ReadData) (confirmed : option string)
  : PermitTokenPage.Hooks :=
  {| PermitTokenPage.address := Some alice;
     PermitTokenPage.isConnected := true;
     PermitTokenPage.chainId := Some chain;
     PermitTokenPage.depositAmount := amount;
     PermitTokenPage.hash := confirmed;
     PermitTokenPage.tokenName := Some "MyPermitToken";
     PermitTokenPage.tokenSymbol := Some "MPT";
     PermitTokenPage.tokenDecimalsData := decimalsData;
     PermitTokenPage.tokenBalanceData :=
       Some {| PermitTokenPage.value := 2000000000000000000;
               PermitTokenPage.formatted := "2";
               PermitTokenPage.symbol := "MPT" |};
     PermitTokenPage.bankDepositRaw := Some 500000000000000000;
     PermitTokenPage.nonces := Some 3;
     PermitTokenPage.isWritePending := false;
     PermitTokenPage.isConfirming := false;
     PermitTokenPage.isConfirmed :=
       match confirmed with Some _ => true | None => false end;
     PermitTokenPage.writeError := None;
     PermitTokenPage.receiptError := None |}.

Definition permitReady : PermitTokenPage.Hooks :=
  permitRender "1.5" 11155111 (PermitTokenPage.NumberData 18) None.

Definition permitPristine : PermitTokenPage.Hooks :=
  permitRender "" 11155111 (PermitTokenPage.NumberData 18) None.

Definition permitLoading : PermitTokenPage.Hooks :=
  permitRender "1.5" 11155111 PermitTokenPage.Undefined None.

Definition permitOnFoundry : PermitTokenPage.Hooks :=
  permitRender "1.5" 31337 (PermitTokenPage.NumberData 18) (Some sampleTxHash).

(** The requests of [permitReady] in the sample world. *)
Definition sampleSignRequest : SignTypedData.Parameters :=
  PermitTokenPage.signParameters permitReady
    (PermitTokenPage.permitDomain permitReady 11155111)
    (PermitTokenPage.permitMessage permitReady 1500000000000000000 3 1700001200).

Definition sampleVerifyRequest : VerifyTypedData.Parameters :=
  PermitTokenPage.verifyParameters permitReady
    (PermitTokenPage.permitDomain permitReady 11155111)
    (PermitTokenPage.permitMessage permitReady 1500000000000000000 3 1700001200)
    sampleSignature.

Definition sampleDepositCall : Contract.Parameters :=
  PermitTokenPage.depositCall permitReady 1500000000000000000 1700001200
    (PermitTokenPage.splitSig sampleSignature).

(** A signature of 64 bytes, without its last byte. *)
Definition compactSignature : string := "0x" ++ sampleR ++ sampleS.

(** The permit page before the [symbol] read has returned. *)
Definition permitNoSymbol : PermitTokenPage.Hooks :=
  {| PermitTokenPage.address := Some alice;
     PermitTokenPage.isConnected := true;
     PermitTokenPage.chainId := Some 11155111;
     PermitTokenPage.depositAmount := "";
     PermitTokenPage.hash := None;
     PermitTokenPage.tokenName := None;
     PermitTokenPage.tokenSymbol := None;
     PermitTokenPage.tokenDecimalsData := PermitTokenPage.NumberData 18;
     PermitTokenPage.tokenBalanceData := None;
     PermitTokenPage.bankDepositRaw := Some 500000000000000000;
     PermitTokenPage.nonces := None;
     PermitTokenPage.isWritePending := false;
     PermitTokenPage.isConfirming := false;
     PermitTokenPage.isConfirmed := false;
     PermitTokenPage.writeError := None;
     PermitTokenPage.receiptError := None |}.

Definition receiptTimeout : JsError :=
  {| isBaseError := true;
     shortMessage := Some "Timed out while waiting for transaction to be confirmed.";
     message := Some "Timed out while waiting for transaction to be confirmed. Version: viem";
     asString := "WaitForTransactionReceiptTimeoutError: Timed out" |}.

(** Renders of the permit page that hold an error of the receipt hook:
    connected or not, with or without an error of the write hook. *)
Definition permitFailedReceipt (connected : bool) (written : option JsError)
  : PermitTokenPage.Hooks :=
  {| PermitTokenPage.address := if connected then Some alice else None;
     PermitTokenPage.isConnected := connected;
     PermitTokenPage.chainId := Some 11155111;
     PermitTokenPage.depositAmount := "1.5";
     PermitTokenPage.hash := Some sampleTxHash;
     PermitTokenPage.tokenName := Some "MyPermitToken";
     PermitTokenPage.tokenSymbol := Some "MPT";
     PermitTokenPage.tokenDecimalsData := PermitTokenPage.NumberData 18;
     PermitTokenPage.tokenBalanceData := None;
     PermitTokenPage.bankDepositRaw := None;
     PermitTokenPage.nonces := Some 3;
     PermitTokenPage.isWritePending := false;
     PermitTokenPage.isConfirming := false;
     PermitTokenPage.isConfirmed := false;
     PermitTokenPage.writeError := written;
     PermitTokenPage.receiptError := Some receiptTimeout |}.

(** A render of the transfer page that holds an error of the receipt hook. *)
Definition transferFailedReceipt : TransferPage.Hooks :=
  {| TransferPage.address := Some alice;
     TransferPage.chainId := Some 11155111;
     TransferPage.toAddress := bob;
     TransferPage.rawAmount := "1.5";
     TransferPage.hash := Some sampleTxHash;
     TransferPage.tokenDecimals := TransferPage.NumberData 18;
     TransferPage.tokenBalance := Some 2000000000000000000;
     TransferPage.isWritePending := false;
     TransferPage.isConfirming := false;
     TransferPage.isConfirmed := false;
     TransferPage.writeError := None;
     TransferPage.receiptError := Some receiptTimeout |}.

(** Amounts that [parseUnits] rejects. *)
Definition transferUnparsable : TransferPage.Hooks :=
  transferRender bob "abc" 11155111 (TransferPage.NumberData 18) None.

Definition permitUnparsable : PermitTokenPage.Hooks :=
  permitRender "abc" 11155111 (PermitTokenPage.NumberData 18) None.

(** Confirmed transactions on Sepolia. *)
Definition transferConfirmed : TransferPage.Hooks :=
  transferRender bob "1.5" 11155111 (TransferPage.NumberData 18) (Some sampleTxHash).

Definition permitConfirmed : PermitTokenPage.Hooks :=
  permitRender "1.5" 11155111 (PermitTokenPage.NumberData 18) (Some sampleTxHash).

End Sample.


(** ** The explorer table of the specification

    The block explorers by chain id, as the specification lists them; the
    two copies of [explorerBaseFromChainId] are compared with it below. *)

Definition explorers : list (Z * string) :=
  [ (1, "https://etherscan.io");
    (11155111, "https://sepolia.etherscan.io");
    (10, "https://optimistic.etherscan.io");
    (8453, "https://basescan.org");
    (42161, "https://arbiscan.io");
    (137, "https://polygonscan.com") ].

Definition explorerOf (chainId : option Z) : option string :=
  match chainId with
  | Some n => option_map snd (find (fun entry => fst entry =? n) explorers)
  | None => None
  end.

(** ** The verdicts of the amount validation

    The verdict on a parsed amount, in the words of the specification:
    the message for an unparsable amount, for an amount that is zero or
    negative, for an amount above a loaded balance, and no message
    otherwise. *)
Inductive Verdict (parsed : option Z) (balance : option Z) : string -> Prop :=
| invalid_format :
    parsed = None -> Verdict parsed balance "Invalid amount format"
| not_positive amount :
    parsed = Some amount -> amount <= 0 ->
    Verdict parsed balance "Amount must be greater than 0"
| insufficient amount available :
    parsed = Some amount -> 0 < amount ->
    balance = Some available -> available < amount ->
    Verdict parsed balance "Insufficient balance"
| accepted amount :
    parsed = Some amount -> 0 < amount ->
    (forall available, balance = Some available -> amount <= available) ->
    Verdict parsed balance "".

(* ===================================================================== *)
(** * Part II: properties                                                  *)
(* ===================================================================== *)

(** ** Runs of the two handlers *)

Section HandlerRuns.
Context {viem : Viem} {W : Type} {env : Wagmi.World W}.

Import Wagmi.

Ltac settle_next :=
  match goal with
  | |- context [settle ?X ?c ?w] =>
      let w' := fresh "w" in
      destruct (settle X c w) as [[?x | ?e] w']
  | |- context [clock ?w] =>
      let w' := fresh "w" in
      destruct (clock w) as [?ms w']
  end;
  cbn [run bind try_catch await now perform logged trace completion world
       observe].

(** A run of [handleTransfer] returns normally; it does nothing when the
    guard fails and has one of the two shapes of [TransferTrace] otherwise. *)
Lemma handleTransfer_runs (h : TransferPage.Hooks) (w : W) :
  let R := run (TransferPage.handleTransfer h) w in
  completion R = Returned tt /\
  ((TransferPage.canSubmit h = false /\ trace R = []) \/
   exists amount,
     TransferPage.canSubmit h = true /\
     TransferPage.amountAsBigInt h = Some amount /\
     TransferPage.TransferTrace h amount (trace R)).
Proof.
  cbv zeta. unfold TransferPage.handleTransfer.
  destruct (TransferPage.canSubmit h) eqn:Hcan.
  - destruct (TransferPage.amountAsBigInt h) as [amount|] eqn:Hamount.
    + cbn [run bind try_catch await now perform logged trace completion world
           observe].
      settle_next.
      * split; [reflexivity|]. right. exists amount.
        repeat split. apply TransferPage.transfer_sent.
      * split; [reflexivity|]. right. exists amount.
        repeat split. apply TransferPage.transfer_failed.
    + unfold TransferPage.canSubmit in Hcan. rewrite Hamount in Hcan.
      cbn in Hcan. rewrite !andb_false_r in Hcan. discriminate.
  - cbn. split; [reflexivity|]. left. split; reflexivity.
Qed.

(** A run of [handleDepositWithPermit] returns normally; it does nothing
    when the guard fails and has one of the shapes of [DepositTrace]
    otherwise. *)
Lemma handleDepositWithPermit_runs (h : PermitTokenPage.Hooks) (w : W) :
  let R := run (PermitTokenPage.handleDepositWithPermit h) w in
  completion R = Returned tt /\
  ((PermitTokenPage.canDeposit h = false /\ trace R = []) \/
   exists amount,
     PermitTokenPage.canDeposit h = true /\
     PermitTokenPage.depositAmountBigInt h = Some amount /\
     PermitTokenPage.DepositTrace h amount (trace R)).
Proof.
  cbv zeta. unfold PermitTokenPage.handleDepositWithPermit.
  destruct (PermitTokenPage.canDeposit h) eqn:Hcan; cbn [negb orb].
  2: { cbn. split; [reflexivity|]. left. split; reflexivity. }
  destruct (PermitTokenPage.depositAmountBigInt h) as [amount|] eqn:Hamount.
  2: { unfold PermitTokenPage.canDeposit in Hcan. rewrite Hamount in Hcan.
       cbn in Hcan. rewrite andb_false_r in Hcan. discriminate. }
  assert (Htruthy : Js.truthy_oint (Some amount) = true).
  { unfold PermitTokenPage.canDeposit in Hcan. rewrite Hamount in Hcan.
    apply andb_prop in Hcan as [Hcan _]. apply andb_prop in Hcan as [_ Hcan].
    exact Hcan. }
  rewrite Htruthy. cbn [negb].
  unfold PermitTokenPage.signPermit.
  cbn [run bind try_catch await now perform logged trace completion world
       observe].
  settle_next.
  2: { split; [reflexivity|]. right. exists amount. repeat split.
       apply PermitTokenPage.nonces_failed. }
  settle_next. settle_next.
  2: { split; [reflexivity|]. right. exists amount. repeat split.
       apply PermitTokenPage.chain_failed. }
  settle_next.
  2: { split; [reflexivity|]. right. exists amount. repeat split.
       apply PermitTokenPage.sign_failed. }
  settle_next.
  2: { split; [reflexivity|]. right. exists amount. repeat split.
       apply PermitTokenPage.verify_failed. }
  match goal with ok : bool |- _ => destruct ok end;
    cbn [negb run bind try_catch await now perform logged trace completion
         world observe].
  2: { split; [reflexivity|]. right. exists amount. repeat split.
       apply PermitTokenPage.verify_refused. }
  settle_next.
  2: { split; [reflexivity|]. right. exists amount. repeat split.
       apply PermitTokenPage.simulate_failed. }
  settle_next.
  2: { split; [reflexivity|]. right. exists amount. repeat split.
       apply PermitTokenPage.write_failed. }
  split; [reflexivity|]. right. exists amount. repeat split.
  apply PermitTokenPage.submitted.
Qed.

End HandlerRuns.

(** ** The block explorer of a chain *)

Lemma transfer_explorer_table (c : option Z) :
  TransferPage.explorerBaseFromChainId c = explorerOf c.
Proof.
  destruct c as [[|p|p]|]; try reflexivity.
  repeat (destruct p as [p|p|]; try reflexivity).
Qed.

Lemma permit_explorer_table (c : option Z) :
  PermitTokenPage.explorerBaseFromChainId c = explorerOf c.
Proof.
  destruct c as [[|p|p]|]; try reflexivity.
  repeat (destruct p as [p|p|]; try reflexivity).
Qed.

(** C8. On both pages the explorer base is the entry of the chain id in the
    table (chain ids 1, 11155111, 10, 8453, 42161 and 137), and nothing for
    any other or for an absent chain id; without a base no explorer link is
    rendered, whatever the state of the transaction. *)
Theorem explorer_base_by_chain_id
  (c : option Z) (ht : TransferPage.Hooks) (hp : PermitTokenPage.Hooks) :
  TransferPage.explorerBaseFromChainId c = explorerOf c /\
  PermitTokenPage.explorerBaseFromChainId c = explorerOf c /\
  TransferPage.explorerBase ht = explorerOf (TransferPage.chainId ht) /\
  PermitTokenPage.explorerBase hp = explorerOf (PermitTokenPage.chainId hp) /\
  (explorerOf (TransferPage.chainId ht) = None ->
   TransferPage.explorerLink ht = None) /\
  (explorerOf (PermitTokenPage.chainId hp) = None ->
   PermitTokenPage.explorerLink hp = None).
Proof.
  repeat split.
  - apply transfer_explorer_table.
  - apply permit_explorer_table.
  - apply transfer_explorer_table.
  - apply permit_explorer_table.
  - intros Hnone. unfold TransferPage.explorerLink, TransferPage.explorerBase.
    rewrite transfer_explorer_table, Hnone.
    destruct (_ && _); reflexivity.
  - intros Hnone. unfold PermitTokenPage.explorerLink, PermitTokenPage.explorerBase.
    rewrite permit_explorer_table, Hnone.
    destruct (_ && _); reflexivity.
Qed.

(** ** Splitting a signature *)

Section Slices.

Lemma substring_app_prefix (a b : string) :
  substring 0 (String.length a) (a ++ b) = a.
Proof.
  induction a as [|c a IH]; cbn.
  - destruct b; reflexivity.
  - rewrite IH. reflexivity.
Qed.

Lemma substring_app_skip (a b : string) (k m : nat) :
  substring (String.length a + k) m (a ++ b) = substring k m b.
Proof.
  induction a as [|c a IH]; cbn; [reflexivity | exact IH].
Qed.

Lemma substring_whole (a : string) :
  substring 0 (String.length a) a = a.
Proof.
  induction a as [|c a IH]; cbn; [reflexivity | rewrite IH; reflexivity].
Qed.

Lemma hexDigit_not_white (c : ascii) (d : Z) :
  Js.hexDigit c = Some d -> Js.isWhiteSpace c = false.
Proof.
  destruct c as [[] [] [] [] [] [] [] []]; cbv; intros Hd;
    first [reflexivity | discriminate].
Qed.

Lemma Number_0x_byte (c1 c2 : ascii) (d1 d2 : Z) :
  Js.hexDigit c1 = Some d1 -> Js.hexDigit c2 = Some d2 ->
  Js.Number_0x (String c1 (String c2 "")) = Js.Num (16 * d1 + d2).
Proof.
  intros H1 H2. unfold Js.Number_0x. cbn [Js.trimEnd].
  rewrite (hexDigit_not_white c2 d2 H2). cbn [Js.hexValue].
  rewrite H1, H2. reflexivity.
Qed.

Lemma slice_first_word (a b : string) :
  String.length a = 64%nat -> Js.slice 0 64 (a ++ b) = a.
Proof.
  intros Ha. unfold Js.slice. change (64 - 0)%nat with 64%nat.
  rewrite <- Ha. apply substring_app_prefix.
Qed.

Lemma slice_second_word (a b c : string) :
  String.length a = 64%nat -> String.length b = 64%nat ->
  Js.slice 64 128 (a ++ b ++ c) = b.
Proof.
  intros Ha Hb. unfold Js.slice. change (128 - 64)%nat with 64%nat.
  rewrite <- (Nat.add_0_r 64) at 1. rewrite <- Ha at 1.
  rewrite substring_app_skip. rewrite <- Hb. apply substring_app_prefix.
Qed.

Lemma slice_last_byte (a b : string) (c1 c2 : ascii) :
  String.length a = 64%nat -> String.length b = 64%nat ->
  Js.slice 128 130 (a ++ b ++ String c1 (String c2 "")) =
  String c1 (String c2 "").
Proof.
  intros Ha Hb. unfold Js.slice. change (130 - 128)%nat with 2%nat.
  change 128%nat with (64 + 64)%nat.
  rewrite <- Ha at 1. rewrite substring_app_skip.
  rewrite <- (Nat.add_0_r 64) at 1. rewrite <- Hb at 1.
  rewrite substring_app_skip. reflexivity.
Qed.

End Slices.

(** C9. A signature made of [0x], 32 bytes [R], 32 bytes [S] and one last
    byte is split into [r = 0x R], [s = 0x S] and [v] the value of the last
    byte, except that 0 and 1 become 27 and 28; [v] is never 0 nor 1. *)
Theorem splitSig_components (R S : string) (c1 c2 : ascii) (d1 d2 : Z) :
  String.length R = 64%nat ->
  String.length S = 64%nat ->
  Js.hexDigit c1 = Some d1 ->
  Js.hexDigit c2 = Some d2 ->
  let last := 16 * d1 + d2 in
  let sig := PermitTokenPage.splitSig ("0x" ++ R ++ S ++ String c1 (String c2 "")) in
  PermitTokenPage.r sig = "0x" ++ R /\
  PermitTokenPage.s sig = "0x" ++ S /\
  PermitTokenPage.v sig =
    Js.Num (if last =? 0 then 27 else if last =? 1 then 28 else last) /\
  PermitTokenPage.v sig <> Js.Num 0 /\
  PermitTokenPage.v sig <> Js.Num 1.
Proof.
  intros HR HS H1 H2 last sig.
  assert (Hsplit : sig =
    {| PermitTokenPage.v :=
         Js.Num (if last =? 0 then 27 else if last =? 1 then 28 else last);
       PermitTokenPage.r := "0x" ++ R;
       PermitTokenPage.s := "0x" ++ S |}).
  { subst sig. unfold PermitTokenPage.splitSig.
    change (Js.slice_from 2 ("0x" ++ R ++ S ++ String c1 (String c2 "")))
      with (R ++ S ++ String c1 (String c2 "")).
    rewrite (slice_first_word _ _ HR), (slice_second_word _ _ _ HR HS),
      (slice_last_byte _ _ _ _ HR HS), (Number_0x_byte c1 c2 d1 d2 H1 H2).
    fold last.
    destruct (Z.eqb_spec last 0) as [->|H0]; [reflexivity|].
    destruct (Z.eqb_spec last 1) as [->|H1']; reflexivity. }
  assert (Hv : PermitTokenPage.v sig =
    Js.Num (if last =? 0 then 27 else if last =? 1 then 28 else last))
    by (rewrite Hsplit; reflexivity).
  rewrite Hsplit at 1 2. cbn [PermitTokenPage.r PermitTokenPage.s].
  repeat split; try assumption.
  - rewrite Hv. destruct (Z.eqb_spec last 0); [discriminate|].
    destruct (Z.eqb_spec last 1); [discriminate|]. congruence.
  - rewrite Hv. destruct (Z.eqb_spec last 0); [discriminate|].
    destruct (Z.eqb_spec last 1); [discriminate|]. congruence.
Qed.

(** ** Decimals *)

Section Pages.
Context {viem : Viem}.

(** C10. While the [decimals] read holds [undefined] or [null], both pages
    parse the entered amount and format the balances they format
    themselves with 18 decimals; once the read holds a number, they use
    that number. (The token balance of the permit page arrives already
    formatted from [useBalance].) *)
Theorem decimals_default_18
  (ht : TransferPage.Hooks) (hp : PermitTokenPage.Hooks) (d : Z) :
  (TransferPage.tokenDecimals ht = TransferPage.Undefined /\ d = 18 \/
   TransferPage.tokenDecimals ht = TransferPage.Null /\ d = 18 \/
   TransferPage.tokenDecimals ht = TransferPage.NumberData d ->
   TransferPage.decimals ht = d /\
   (TransferPage.rawAmount ht <> "" ->
    TransferPage.amountAsBigInt ht = parseUnits (TransferPage.rawAmount ht) d) /\
   (forall balance, TransferPage.tokenBalance ht = Some balance ->
    TransferPage.formattedBalance ht =
      match formatUnits balance d with
      | Some text => text
      | None => bigintToString balance
      end)) /\
  (PermitTokenPage.tokenDecimalsData hp = PermitTokenPage.Undefined /\ d = 18 \/
   PermitTokenPage.tokenDecimalsData hp = PermitTokenPage.Null /\ d = 18 \/
   PermitTokenPage.tokenDecimalsData hp = PermitTokenPage.NumberData d ->
   PermitTokenPage.decimals hp = d /\
   (PermitTokenPage.depositAmount hp <> "" ->
    PermitTokenPage.depositAmountBigInt hp =
      parseUnits (PermitTokenPage.depositAmount hp) d) /\
   (forall raw, PermitTokenPage.bankDepositRaw hp = Some raw ->
    PermitTokenPage.formattedBankDeposit hp =
      match formatUnits raw d with
      | Some text =>
          Js.trim (text ++ " " ++ Js.nullish_or (PermitTokenPage.tokenSymbol hp) "")
      | None => bigintToString raw
      end)).
Proof.
  split.
  - intros Hdata.
    assert (Hd : TransferPage.decimals ht = d).
    { unfold TransferPage.decimals.
      destruct Hdata as [[-> ->] | [[-> ->] | ->]]; reflexivity. }
    split; [exact Hd|]. split.
    + intros Hraw. unfold TransferPage.amountAsBigInt. rewrite Hd.
      destruct (TransferPage.rawAmount ht); [contradiction | reflexivity].
    + intros balance Hbal. unfold TransferPage.formattedBalance.
      rewrite Hbal, Hd. reflexivity.
  - intros Hdata.
    assert (Hd : PermitTokenPage.decimals hp = d).
    { unfold PermitTokenPage.decimals.
      destruct Hdata as [[-> ->] | [[-> ->] | ->]]; reflexivity. }
    split; [exact Hd|]. split.
    + intros Hraw. unfold PermitTokenPage.depositAmountBigInt. rewrite Hd.
      destruct (PermitTokenPage.depositAmount hp); [contradiction | reflexivity].
    + intros raw Hraw. unfold PermitTokenPage.formattedBankDeposit.
      rewrite Hraw, Hd. reflexivity.
Qed.

(** ** Validation of the amount *)

Lemma amountError_cases (h : TransferPage.Hooks) :
  TransferPage.amountError h =
    match TransferPage.rawAmount h with
    | EmptyString => ""
    | raw =>
        match parseUnits raw (TransferPage.decimals h) with
        | None => "Invalid amount format"
        | Some amount =>
            if amount <=? 0 then "Amount must be greater than 0"
            else match TransferPage.tokenBalance h with
                 | Some balance =>
                     if amount >? balance then "Insufficient balance" else ""
                 | None => ""
                 end
        end
    end.
Proof.
  unfold TransferPage.amountError, TransferPage.amountAsBigInt.
  destruct (TransferPage.rawAmount h); reflexivity.
Qed.

Lemma depositAmountError_cases (h : PermitTokenPage.Hooks) :
  PermitTokenPage.depositAmountError h =
    match PermitTokenPage.depositAmount h with
    | EmptyString => ""
    | raw =>
        match parseUnits raw (PermitTokenPage.decimals h) with
        | None => "Invalid amount format"
        | Some amount =>
            if amount <=? 0 then "Amount must be greater than 0"
            else match PermitTokenPage.tokenBalanceData h with
                 | Some balance =>
                     if amount >? PermitTokenPage.value balance
                     then "Insufficient balance" else ""
                 | None => ""
                 end
        end
    end.
Proof.
  unfold PermitTokenPage.depositAmountError, PermitTokenPage.depositAmountBigInt.
  destruct (PermitTokenPage.depositAmount h); reflexivity.
Qed.

Lemma verdict_of (parsed balance : option Z) :
  Verdict parsed balance
    match parsed with
    | None => "Invalid amount format"
    | Some amount =>
        if amount <=? 0 then "Amount must be greater than 0"
        else match balance with
             | Some available =>
                 if amount >? available then "Insufficient balance" else ""
             | None => ""
             end
    end.
Proof.
  destruct parsed as [amount|]; [|now apply invalid_format].
  destruct (Z.leb_spec amount 0) as [Hle|Hpos];
    [now apply (not_positive _ _ amount)|].
  destruct balance as [available|].
  - rewrite Z.gtb_ltb. destruct (Z.ltb_spec available amount) as [Hlt|Hge].
    + now apply (insufficient _ _ amount available).
    + apply (accepted _ _ amount); auto. intros a [= <-]. exact Hge.
  - apply (accepted _ _ amount); auto. discriminate.
Qed.

(** The cases of a verdict exclude one another: it names one message. *)
Lemma verdict_unique (parsed balance : option Z) (m1 m2 : string) :
  Verdict parsed balance m1 -> Verdict parsed balance m2 -> m1 = m2.
Proof.
  intros H1 H2.
  destruct H1 as [Hp1 | a1 Hp1 Hle1 | a1 b1 Hp1 Hpos1 Hb1 Hlt1 | a1 Hp1 Hpos1 Hok1];
  destruct H2 as [Hp2 | a2 Hp2 Hle2 | a2 b2 Hp2 Hpos2 Hb2 Hlt2 | a2 Hp2 Hpos2 Hok2];
    try reflexivity; try congruence;
    assert (a1 = a2) by congruence; subst a2; try lia.
  - specialize (Hok2 _ Hb1). lia.
  - specialize (Hok1 _ Hb2). lia.
Qed.

Lemma amountError_verdict (h : TransferPage.Hooks) :
  TransferPage.rawAmount h <> "" ->
  Verdict (parseUnits (TransferPage.rawAmount h) (TransferPage.decimals h))
    (TransferPage.tokenBalance h) (TransferPage.amountError h).
Proof.
  intros Hraw. rewrite amountError_cases.
  destruct (TransferPage.rawAmount h) as [|c raw]; [contradiction|].
  apply verdict_of.
Qed.

Lemma depositAmountError_verdict (h : PermitTokenPage.Hooks) :
  PermitTokenPage.depositAmount h <> "" ->
  Verdict
    (parseUnits (PermitTokenPage.depositAmount h) (PermitTokenPage.decimals h))
    (option_map PermitTokenPage.value (PermitTokenPage.tokenBalanceData h))
    (PermitTokenPage.depositAmountError h).
Proof.
  intros Hraw. rewrite depositAmountError_cases.
  destruct (PermitTokenPage.depositAmount h) as [|c raw]; [contradiction|].
  destruct (PermitTokenPage.tokenBalanceData h) as [balance|].
  - exact (verdict_of _ (Some (PermitTokenPage.value balance))).
  - exact (verdict_of _ None).
Qed.

(** C4 (amended). On both pages a non-empty amount gets the message of its
    case: invalid format when [parseUnits] rejects it, must be greater
    than 0 when it parses to zero or below, insufficient balance when it
    exceeds a loaded balance, and no message otherwise. The empty amount
    gets no message. *)
Theorem amount_validation
  (ht : TransferPage.Hooks) (hp : PermitTokenPage.Hooks) :
  (TransferPage.rawAmount ht = "" ->
   TransferPage.amountError ht = "" /\
   TransferPage.shownAmountError ht = None) /\
  (TransferPage.rawAmount ht <> "" ->
   Verdict (parseUnits (TransferPage.rawAmount ht) (TransferPage.decimals ht))
     (TransferPage.tokenBalance ht) (TransferPage.amountError ht)) /\
  (PermitTokenPage.depositAmount hp = "" ->
   PermitTokenPage.depositAmountError hp = "" /\
   PermitTokenPage.shownDepositAmountError hp = None) /\
  (PermitTokenPage.depositAmount hp <> "" ->
   Verdict
     (parseUnits (PermitTokenPage.depositAmount hp) (PermitTokenPage.decimals hp))
     (option_map PermitTokenPage.value (PermitTokenPage.tokenBalanceData hp))
     (PermitTokenPage.depositAmountError hp)).
Proof.
  split; [|split; [|split]].
  - intros Hraw. unfold TransferPage.shownAmountError.
    rewrite amountError_cases, Hraw. split; reflexivity.
  - apply amountError_verdict.
  - intros Hraw. unfold PermitTokenPage.shownDepositAmountError.
    rewrite depositAmountError_cases, Hraw.
    destruct (PermitTokenPage.isConnected hp); split; reflexivity.
  - apply depositAmountError_verdict.
Qed.

(** ** The submit buttons *)

Lemma truthy_string_false (text : string) :
  Js.truthy_string text = false -> text = "".
Proof. destruct text; [reflexivity | discriminate]. Qed.

Lemma truthy_oint_nonempty (raw : string) (parsed : option Z) :
  Js.truthy_oint (if negb (Js.truthy_string raw) then None else parsed) = true ->
  raw <> "".
Proof. destruct raw; [discriminate | discriminate]. Qed.

(** C5. A submit button that is enabled has everything the pages ask for:
    a connected wallet (on the permit page, on chain 11155111), an amount
    that parses to a positive value and raises no message, on the transfer
    page a recipient that is an address, no write pending and no
    transaction being confirmed. *)
Theorem submit_enabled_only_when_valid
  (ht : TransferPage.Hooks) (hp : PermitTokenPage.Hooks) :
  (TransferPage.submitDisabled ht = false ->
   (exists account, TransferPage.address ht = Some account /\ account <> "") /\
   (exists amount,
      parseUnits (TransferPage.rawAmount ht) (TransferPage.decimals ht)
        = Some amount /\
      TransferPage.amountAsBigInt ht = Some amount /\ 0 < amount) /\
   TransferPage.amountError ht = "" /\
   isAddress (TransferPage.toAddress ht) = true /\
   TransferPage.isWritePending ht = false /\
   TransferPage.isConfirming ht = false) /\
  (PermitTokenPage.depositDisabled hp = false ->
   PermitTokenPage.isConnected hp = true /\
   PermitTokenPage.chainId hp = Some 11155111 /\
   (exists amount,
      parseUnits (PermitTokenPage.depositAmount hp) (PermitTokenPage.decimals hp)
        = Some amount /\
      PermitTokenPage.depositAmountBigInt hp = Some amount /\ 0 < amount) /\
   PermitTokenPage.depositAmountError hp = "" /\
   PermitTokenPage.isWritePending hp = false /\
   PermitTokenPage.isConfirming hp = false).
Proof.
  split.
  - unfold TransferPage.submitDisabled, TransferPage.canSubmit.
    intros Hen. apply negb_false_iff in Hen.
    repeat (apply andb_prop in Hen as [Hen ?]).
    repeat match goal with
           | H : negb _ = true |- _ => apply negb_true_iff in H
           end.
    match goal with
    | H : Js.truthy_string (TransferPage.amountError ht) = false |- _ =>
        apply truthy_string_false in H; rename H into Herr
    end.
    match goal with
    | H : Js.truthy_oint (TransferPage.amountAsBigInt ht) = true |- _ =>
        rename H into Hamount
    end.
    assert (Hraw : TransferPage.rawAmount ht <> "")
      by (apply (truthy_oint_nonempty _ _ Hamount)).
    assert (Hparse : TransferPage.amountAsBigInt ht =
              parseUnits (TransferPage.rawAmount ht) (TransferPage.decimals ht)).
    { unfold TransferPage.amountAsBigInt.
      destruct (TransferPage.rawAmount ht); [contradiction | reflexivity]. }
    repeat split; try assumption.
    + destruct (TransferPage.address ht) as [[|c account]|];
        try discriminate. eexists. split; [reflexivity | discriminate].
    + pose proof (amountError_verdict ht Hraw) as Hv.
      rewrite Herr in Hv.
      inversion Hv as [| | |amount Hsome Hpos Hok].
      exists amount. rewrite Hparse. repeat split; assumption.
  - unfold PermitTokenPage.depositDisabled, PermitTokenPage.canDeposit,
      PermitTokenPage.baseGuard.
    intros Hen. apply negb_false_iff in Hen.
    repeat (apply andb_prop in Hen as [Hen ?]).
    repeat match goal with
           | H : negb _ = true |- _ => apply negb_true_iff in H
           end.
    match goal with
    | H : Js.truthy_string (PermitTokenPage.depositAmountError hp) = false |- _ =>
        apply truthy_string_false in H; rename H into Herr
    end.
    match goal with
    | H : Js.truthy_oint (PermitTokenPage.depositAmountBigInt hp) = true |- _ =>
        rename H into Hamount
    end.
    assert (Hraw : PermitTokenPage.depositAmount hp <> "")
      by (apply (truthy_oint_nonempty _ _ Hamount)).
    assert (Hparse : PermitTokenPage.depositAmountBigInt hp =
              parseUnits (PermitTokenPage.depositAmount hp)
                (PermitTokenPage.decimals hp)).
    { unfold PermitTokenPage.depositAmountBigInt.
      destruct (PermitTokenPage.depositAmount hp); [contradiction | reflexivity]. }
    repeat split; try assumption.
    + match goal with
      | H : PermitTokenPage.correctNetwork hp = true |- _ =>
          unfold PermitTokenPage.correctNetwork in H; cbn in H;
          destruct (PermitTokenPage.chainId hp) as [n|]; [|discriminate];
          apply Z.eqb_eq in H; subst n; reflexivity
      end.
    + pose proof (depositAmountError_verdict hp Hraw) as Hv.
      rewrite Herr in Hv.
      inversion Hv as [| | |amount Hsome Hpos Hok].
      exists amount. rewrite Hparse. repeat split; assumption.
Qed.

End Pages.

(** ** Errors held by the hooks *)

(** Outside a confirmation, the status line of the permit page reports the
    error of the write hook, and the error of the receipt hook when the
    write hook holds none; the transfer page shows each under the form. *)
Lemma hook_errors_are_shown
  (ht : TransferPage.Hooks) (hp : PermitTokenPage.Hooks) (e : Wagmi.JsError) :
  (PermitTokenPage.isConfirming hp = false ->
   PermitTokenPage.isConfirmed hp = false ->
   PermitTokenPage.writeError hp = Some e ->
   PermitTokenPage.transactionStatus hp =
     "Transaction Error: " ++
     PermitTokenPage.interpolate (PermitTokenPage.hookErrorMessage e)) /\
  (PermitTokenPage.isConfirming hp = false ->
   PermitTokenPage.isConfirmed hp = false ->
   PermitTokenPage.writeError hp = None ->
   PermitTokenPage.receiptError hp = Some e ->
   PermitTokenPage.transactionStatus hp =
     "Receipt Error: " ++
     PermitTokenPage.interpolate (PermitTokenPage.hookErrorMessage e)) /\
  (TransferPage.writeError ht = Some e ->
   TransferPage.shownWriteError ht =
     Some ("Transaction Error: " ++ Js.nullish_or (Wagmi.message e) "")) /\
  (TransferPage.receiptError ht = Some e ->
   TransferPage.shownReceiptError ht =
     Some ("Receipt Error: " ++ Js.nullish_or (Wagmi.message e) "")).
Proof.
  unfold PermitTokenPage.transactionStatus, TransferPage.shownWriteError,
    TransferPage.shownReceiptError.
  repeat split; intros; repeat match goal with H : _ = _ |- _ => rewrite H end;
    reflexivity.
Qed.

(** ** The handlers in a world *)

Section Handlers.
Context {viem : Viem} {W : Type} {env : Wagmi.World W}.

Import Wagmi.

(** C7 (amended). A recipient that is not an address keeps the Transfer
    button disabled and the handler idle; when it is also non-empty the
    page shows "Invalid address". An address raises no message, and
    neither does the empty recipient. *)
Theorem recipient_validation (h : TransferPage.Hooks) (w : W) :
  (isAddress (TransferPage.toAddress h) = false ->
   TransferPage.submitDisabled h = true /\
   trace (run (TransferPage.handleTransfer h) w) = []) /\
  (TransferPage.toAddress h <> "" ->
   isAddress (TransferPage.toAddress h) = false ->
   TransferPage.addressError h = "Invalid address" /\
   TransferPage.shownAddressError h = Some "Invalid address") /\
  (isAddress (TransferPage.toAddress h) = true ->
   TransferPage.addressError h = "" /\
   TransferPage.shownAddressError h = None) /\
  (TransferPage.toAddress h = "" ->
   TransferPage.addressError h = "" /\
   TransferPage.shownAddressError h = None).
Proof.
  split; [|split; [|split]].
  - intros Hbad.
    assert (Hcan : TransferPage.canSubmit h = false).
    { unfold TransferPage.canSubmit. rewrite Hbad.
      rewrite !andb_false_r. reflexivity. }
    split.
    + unfold TransferPage.submitDisabled. rewrite Hcan. reflexivity.
    + unfold TransferPage.handleTransfer. rewrite Hcan. reflexivity.
  - intros Hraw Hbad. unfold TransferPage.shownAddressError, TransferPage.addressError.
    destruct (TransferPage.toAddress h); [contradiction|].
    cbn [Js.truthy_string negb]. rewrite Hbad. split; reflexivity.
  - intros Hok. unfold TransferPage.shownAddressError, TransferPage.addressError.
    rewrite Hok. destruct (negb _); split; reflexivity.
  - intros Hraw. unfold TransferPage.shownAddressError, TransferPage.addressError.
    rewrite Hraw. split; reflexivity.
Qed.

Ltac unfold_shapes :=
  unfold PermitTokenPage.report, PermitTokenPage.prepared,
    PermitTokenPage.signed, PermitTokenPage.verified,
    PermitTokenPage.simulated in *;
  cbn [app] in *.

Ltac no_such_event Hin :=
  cbn [In] in Hin;
  repeat (destruct Hin as [Hin | Hin]; [try discriminate Hin|]);
  try contradiction.


(** C2. Every signing request of the deposit handler carries the domain
    made of the token name (or "PermitToken" when the name is missing or
    empty), version "1", the chain id the node has just returned and the
    permit token as verifying contract; the primary type "Permit" with its
    five typed fields; and the message of the connected account as owner,
    the bank as spender, the entered amount, the nonce and the deadline.
    The transfer handler sends no signing request. *)
Theorem signing_request_content
  (ht : TransferPage.Hooks) (hp : PermitTokenPage.Hooks) (w : W) :
  (forall p o,
     In (ESignTypedData p o)
        (trace (run (PermitTokenPage.handleDepositWithPermit hp) w)) ->
     exists amount latest ms cid,
       PermitTokenPage.isConnected hp = true /\
       PermitTokenPage.depositAmountBigInt hp = Some amount /\
       In (ERefetchNonces (Resolved latest))
          (trace (run (PermitTokenPage.handleDepositWithPermit hp) w)) /\
       In (EDateNow ms)
          (trace (run (PermitTokenPage.handleDepositWithPermit hp) w)) /\
       In (EGetChainId (Resolved cid))
          (trace (run (PermitTokenPage.handleDepositWithPermit hp) w)) /\
       SignTypedData.account p = PermitTokenPage.address hp /\
       SignTypedData.domain p =
         {| TypedData.name :=
              match PermitTokenPage.tokenName hp with
              | Some (String _ _ as name) => name
              | _ => "PermitToken"
              end;
            TypedData.version := "1";
            TypedData.chainId := cid;
            TypedData.verifyingContract :=
              "0x042eB0c69FC25678B0d399984c17959875f7018c" |} /\
       SignTypedData.primaryType p = "Permit" /\
       SignTypedData.types p =
         [("Permit",
           [ {| TypedData.fieldName := "owner"; TypedData.fieldType := "address" |};
             {| TypedData.fieldName := "spender"; TypedData.fieldType := "address" |};
             {| TypedData.fieldName := "value"; TypedData.fieldType := "uint256" |};
             {| TypedData.fieldName := "nonce"; TypedData.fieldType := "uint256" |};
             {| TypedData.fieldName := "deadline"; TypedData.fieldType := "uint256" |} ])] /\
       SignTypedData.message p =
         {| TypedData.owner := PermitTokenPage.address hp;
            TypedData.spender := "0xA09A259Bd1516E1848337A592f19Ba08870f8FD2";
            TypedData.value := amount;
            TypedData.nonce :=
              match latest, PermitTokenPage.nonces hp with
              | Some fresh, _ => fresh
              | None, Some cached => cached
              | None, None => 0
              end;
            TypedData.deadline := ms / 1000 + 1200 |}) /\
  (forall p o,
     ~ In (ESignTypedData p o)
          (trace (run (TransferPage.handleTransfer ht) w))).
Proof.
  split.
  - intros p o Hin.
    pose proof (handleDepositWithPermit_runs hp w) as Hruns. cbv zeta in Hruns.
    destruct Hruns as [_ [[_ Hnil] | (amount & Hcan & Hamount & Hshape)]].
    { rewrite Hnil in Hin. contradiction. }
    assert (Hconn : PermitTokenPage.isConnected hp = true).
    { unfold PermitTokenPage.canDeposit, PermitTokenPage.baseGuard in Hcan.
      repeat (apply andb_prop in Hcan as [Hcan _]). exact Hcan. }
    destruct Hshape; unfold_shapes; no_such_event Hin;
      injection Hin as <- <-;
      exists amount, latest, ms, cid;
      (split; [exact Hconn|]); (split; [exact Hamount|]);
      (split; [cbn [In]; tauto|]); (split; [cbn [In]; tauto|]);
      (split; [cbn [In]; tauto|]);
      repeat split;
      cbn; unfold PermitTokenPage.permitNonce;
      destruct latest, (PermitTokenPage.nonces hp); reflexivity.
  - intros p o Hin.
    pose proof (handleTransfer_runs ht w) as Hruns. cbv zeta in Hruns.
    destruct Hruns as [_ [[_ Hnil] | (amount & _ & _ & Hshape)]].
    { rewrite Hnil in Hin. contradiction. }
    destruct Hshape; no_such_event Hin.
Qed.

(** C3. In a run of the deposit handler, a simulation or a broadcast is
    always preceded by a local verification, against the connected account,
    that answered true, and nothing is simulated or broadcast before it.
    When the verification answers anything else, the run holds no
    simulation and no broadcast; when it answers false, the run ends by
    reporting the verification error, and the handler returns. *)
Theorem local_verification_gates_submission
  (hp : PermitTokenPage.Hooks) (w : W) :
  (forall ev,
     In ev (trace (run (PermitTokenPage.handleDepositWithPermit hp) w)) ->
     isSubmission ev = true ->
     exists before p after,
       trace (run (PermitTokenPage.handleDepositWithPermit hp) w) =
         (before ++ EVerifyTypedData p (Resolved true) :: after)%list /\
       VerifyTypedData.address p = PermitTokenPage.address hp /\
       In (ESignTypedData
             {| SignTypedData.account := VerifyTypedData.address p;
                SignTypedData.domain := VerifyTypedData.domain p;
                SignTypedData.types := VerifyTypedData.types p;
                SignTypedData.primaryType := VerifyTypedData.primaryType p;
                SignTypedData.message := VerifyTypedData.message p |}
             (Resolved (VerifyTypedData.signature p))) before /\
       existsb isSubmission before = false /\
       In ev after) /\
  (forall p o,
     In (EVerifyTypedData p o)
        (trace (run (PermitTokenPage.handleDepositWithPermit hp) w)) ->
     o <> Resolved true ->
     existsb isSubmission
       (trace (run (PermitTokenPage.handleDepositWithPermit hp) w)) = false /\
     completion (run (PermitTokenPage.handleDepositWithPermit hp) w)
       = Returned tt /\
     (o = Resolved false ->
      exists before,
        trace (run (PermitTokenPage.handleDepositWithPermit hp) w) =
          app before
          [ EVerifyTypedData p (Resolved false);
            EEffect (consoleError
              (Error "Local signature verification failed: signer != owner (ERC2612InvalidSigner)"));
            EEffect (alert
              (Some "Local signature verification failed: signer != owner (ERC2612InvalidSigner)")) ])).
Proof.
  pose proof (handleDepositWithPermit_runs hp w) as Hruns. cbv zeta in Hruns.
  destruct Hruns as [Hret [[_ Hnil] | (amount & _ & _ & Hshape)]].
  { rewrite Hnil. split.
    - intros ev Hin. contradiction.
    - intros p o Hin. contradiction. }
  split.
  - intros ev Hin Hsub.
    destruct Hshape; unfold_shapes;
      cbn [In] in Hin;
      repeat (destruct Hin as [Hin | Hin]; [subst ev; try discriminate Hsub|]);
      try contradiction.
    all: eexists (_ :: _ :: _ :: _ :: nil), _, _;
      (split; [reflexivity|]); (split; [reflexivity|]);
      (split; [cbn [In]; auto 6|]); (split; [reflexivity|]);
      cbn [In]; auto.
  - intros p o Hin Hnot.
    destruct Hshape; unfold_shapes; no_such_event Hin;
      injection Hin as <- <-; try congruence.
    + split; [reflexivity|]. split; [exact Hret|]. intros [=].
    + split; [reflexivity|]. split; [exact Hret|]. intros _.
      eexists (_ :: _ :: _ :: _ :: nil). reflexivity.
Qed.

Lemma depositErrorMessage_spelled (e : JsError) :
  PermitTokenPage.depositErrorMessage e =
    if isBaseError e
    then match shortMessage e with
         | Some short => Some short
         | None => message e
         end
    else match message e with
         | Some text => Some text
         | None => Some (asString e)
         end.
Proof.
  unfold PermitTokenPage.depositErrorMessage, Js.nullish, Js.nullish_or.
  destruct (isBaseError e), (shortMessage e), (message e); reflexivity.
Qed.

(** C6 (amended). Both handlers always return normally. When a call of
    the deposit handler is rejected, or the local verification answers
    false, the run ends right there with the error logged and its message
    alerted; when the broadcast of a transfer is rejected, the run ends
    right there with the message of the error as status. No call precedes
    that was itself rejected, and none follows. An amount that [parseUnits]
    rejects, or a recipient that is not an address, is caught where it is
    read: the handler stays idle and the page shows the message (on the
    permit page, while the wallet is connected); the empty amount gets no
    message. An error of the receipt hook is shown as "Receipt Error",
    always on the transfer page, and on the permit page while the wallet is
    connected and the status line is not taken by a confirmation or by an
    error of the write hook. *)
Theorem failures_are_reported
  (ht : TransferPage.Hooks) (hp : PermitTokenPage.Hooks) (w : W) :
  completion (run (PermitTokenPage.handleDepositWithPermit hp) w) = Returned tt /\
  (forall ev e,
     In ev (trace (run (PermitTokenPage.handleDepositWithPermit hp) w)) ->
     rejection ev = Some e ->
     exists before,
       trace (run (PermitTokenPage.handleDepositWithPermit hp) w) =
         app before
         [ ev;
           EEffect (consoleError e);
           EEffect (alert
             (if isBaseError e
              then match shortMessage e with
                   | Some short => Some short
                   | None => message e
                   end
              else match message e with
                   | Some text => Some text
                   | None => Some (asString e)
                   end)) ] /\
       forallb (fun prior => match rejection prior with
                             | Some _ => false
                             | None => true
                             end) before = true) /\
  (forall p,
     In (EVerifyTypedData p (Resolved false))
        (trace (run (PermitTokenPage.handleDepositWithPermit hp) w)) ->
     exists before,
       trace (run (PermitTokenPage.handleDepositWithPermit hp) w) =
         app before
         [ EVerifyTypedData p (Resolved false);
           EEffect (consoleError
             (Error "Local signature verification failed: signer != owner (ERC2612InvalidSigner)"));
           EEffect (alert
             (Some "Local signature verification failed: signer != owner (ERC2612InvalidSigner)")) ] /\
       forallb (fun prior => match rejection prior with
                             | Some _ => false
                             | None => true
                             end) before = true) /\
  completion (run (TransferPage.handleTransfer ht) w) = Returned tt /\
  (forall ev e,
     In ev (trace (run (TransferPage.handleTransfer ht) w)) ->
     rejection ev = Some e ->
     trace (run (TransferPage.handleTransfer ht) w) =
       [ EEffect (setStatus "Waiting for wallet confirmation…");
         ev;
         EEffect (setStatus
           match shortMessage e, message e with
           | Some short, _ => short
           | None, Some text => text
           | None, None => "Transaction rejected or failed"
           end) ]) /\
  (TransferPage.rawAmount ht <> "" ->
   parseUnits (TransferPage.rawAmount ht) (TransferPage.decimals ht) = None ->
   TransferPage.amountAsBigInt ht = None /\
   TransferPage.shownAmountError ht = Some "Invalid amount format" /\
   trace (run (TransferPage.handleTransfer ht) w) = []) /\
  (TransferPage.toAddress ht <> "" ->
   isAddress (TransferPage.toAddress ht) = false ->
   TransferPage.shownAddressError ht = Some "Invalid address" /\
   trace (run (TransferPage.handleTransfer ht) w) = []) /\
  (PermitTokenPage.depositAmount hp <> "" ->
   parseUnits (PermitTokenPage.depositAmount hp) (PermitTokenPage.decimals hp)
     = None ->
   PermitTokenPage.depositAmountBigInt hp = None /\
   trace (run (PermitTokenPage.handleDepositWithPermit hp) w) = [] /\
   (PermitTokenPage.isConnected hp = true ->
    PermitTokenPage.shownDepositAmountError hp = Some "Invalid amount format")) /\
  (TransferPage.rawAmount ht = "" ->
   TransferPage.shownAmountError ht = None /\
   trace (run (TransferPage.handleTransfer ht) w) = []) /\
  (PermitTokenPage.depositAmount hp = "" ->
   PermitTokenPage.shownDepositAmountError hp = None /\
   trace (run (PermitTokenPage.handleDepositWithPermit hp) w) = []) /\
  (forall e,
     TransferPage.receiptError ht = Some e ->
     TransferPage.shownReceiptError ht =
       Some ("Receipt Error: " ++
             match message e with Some text => text | None => "" end)) /\
  (forall e,
     PermitTokenPage.isConnected hp = true ->
     PermitTokenPage.isConfirming hp = false ->
     PermitTokenPage.isConfirmed hp = false ->
     PermitTokenPage.writeError hp = None ->
     PermitTokenPage.receiptError hp = Some e ->
     PermitTokenPage.shownStatus hp =
       Some ("Status: Receipt Error: " ++
             match (if isBaseError e
                    then match shortMessage e with
                         | Some short => Some short
                         | None => message e
                         end
                    else message e)
             with
             | Some text => text
             | None => "undefined"
             end)).
Proof.
  pose proof (handleDepositWithPermit_runs hp w) as Hdep. cbv zeta in Hdep.
  pose proof (handleTransfer_runs ht w) as Htr. cbv zeta in Htr.
  destruct Hdep as [Hdret Hdep]. destruct Htr as [Htret Htr].
  split; [exact Hdret|]. split; [|split; [|split; [exact Htret|]]].
  - intros ev e Hin Hrej.
    destruct Hdep as [[_ Hnil] | (amount & _ & _ & Hshape)].
    { rewrite Hnil in Hin. contradiction. }
    destruct Hshape; unfold_shapes;
      cbn [In] in Hin;
      repeat (destruct Hin as [Hin | Hin]; [subst ev; try discriminate Hrej|]);
      try contradiction;
      injection Hrej as <-;
      rewrite depositErrorMessage_spelled.
    + exists []. split; reflexivity.
    + eexists [_; _]. split; reflexivity.
    + eexists [_; _; _]. split; reflexivity.
    + eexists [_; _; _; _]. split; reflexivity.
    + eexists [_; _; _; _; _]. split; reflexivity.
    + eexists [_; _; _; _; _; _]. split; reflexivity.
  - intros p Hin.
    destruct Hdep as [[_ Hnil] | (amount & _ & _ & Hshape)].
    { rewrite Hnil in Hin. contradiction. }
    destruct Hshape; unfold_shapes; no_such_event Hin.
    injection Hin as <-.
    eexists [_; _; _; _]. split; reflexivity.
  - split.
    { intros ev e Hin Hrej.
      destruct Htr as [[_ Hnil] | (amount & _ & _ & Hshape)].
      { rewrite Hnil in Hin. contradiction. }
      destruct Hshape;
        cbn [In] in Hin;
        repeat (destruct Hin as [Hin | Hin]; [subst ev; try discriminate Hrej|]);
        try contradiction.
      injection Hrej as <-. cbn.
      unfold TransferPage.transferErrorStatus.
      destruct (shortMessage e0), (message e0); reflexivity. }
    assert (Hidle_t : TransferPage.canSubmit ht = false ->
                      trace (run (TransferPage.handleTransfer ht) w) = []).
    { intros Hoff. unfold TransferPage.handleTransfer. rewrite Hoff. reflexivity. }
    assert (Hidle_p : PermitTokenPage.canDeposit hp = false ->
                      trace (run (PermitTokenPage.handleDepositWithPermit hp) w) = []).
    { intros Hoff. unfold PermitTokenPage.handleDepositWithPermit.
      rewrite Hoff. reflexivity. }
    split; [|split; [|split; [|split; [|split; [|split]]]]].
    + intros Hraw Hparse.
      assert (Hbig : TransferPage.amountAsBigInt ht = None).
      { unfold TransferPage.amountAsBigInt.
        destruct (TransferPage.rawAmount ht); [reflexivity | exact Hparse]. }
      split; [exact Hbig|]. split.
      * unfold TransferPage.shownAmountError. rewrite amountError_cases.
        destruct (TransferPage.rawAmount ht); [contradiction|].
        rewrite Hparse. reflexivity.
      * apply Hidle_t. unfold TransferPage.canSubmit. rewrite Hbig.
        cbn. rewrite !andb_false_r. reflexivity.
    + intros Hraw Hbad. split.
      * unfold TransferPage.shownAddressError, TransferPage.addressError.
        destruct (TransferPage.toAddress ht); [contradiction|].
        cbn [Js.truthy_string negb]. rewrite Hbad. reflexivity.
      * apply Hidle_t. unfold TransferPage.canSubmit. rewrite Hbad.
        rewrite !andb_false_r. reflexivity.
    + intros Hraw Hparse.
      assert (Hbig : PermitTokenPage.depositAmountBigInt hp = None).
      { unfold PermitTokenPage.depositAmountBigInt.
        destruct (PermitTokenPage.depositAmount hp); [reflexivity | exact Hparse]. }
      split; [exact Hbig|]. split.
      * apply Hidle_p. unfold PermitTokenPage.canDeposit. rewrite Hbig.
        cbn. rewrite andb_false_r. reflexivity.
      * intros Hconn. unfold PermitTokenPage.shownDepositAmountError.
        rewrite depositAmountError_cases, Hconn.
        destruct (PermitTokenPage.depositAmount hp); [contradiction|].
        rewrite Hparse. reflexivity.
    + intros Hraw. split.
      * unfold TransferPage.shownAmountError.
        rewrite amountError_cases, Hraw. reflexivity.
      * apply Hidle_t. unfold TransferPage.canSubmit, TransferPage.amountAsBigInt.
        rewrite Hraw. cbn. rewrite !andb_false_r. reflexivity.
    + intros Hraw. split.
      * unfold PermitTokenPage.shownDepositAmountError.
        rewrite depositAmountError_cases, Hraw.
        destruct (PermitTokenPage.isConnected hp); reflexivity.
      * apply Hidle_p.
        unfold PermitTokenPage.canDeposit, PermitTokenPage.depositAmountBigInt.
        rewrite Hraw. cbn. rewrite andb_false_r. reflexivity.
    + intros e Hrec. unfold TransferPage.shownReceiptError. rewrite Hrec.
      reflexivity.
    + intros e Hconn Hing Hed Hwrite Hrec.
      unfold PermitTokenPage.shownStatus, PermitTokenPage.statusBlockShown,
        PermitTokenPage.transactionStatus.
      rewrite Hconn, Hing, Hed, Hwrite, Hrec.
      unfold PermitTokenPage.hookErrorMessage, PermitTokenPage.interpolate,
        Js.nullish.
      destruct (isBaseError e), (shortMessage e), (message e); reflexivity.
Qed.

End Handlers.

(** ** The properties on concrete renders *)

Section Instances.

Import Wagmi Sample.

Lemma explorer_base_by_chain_id_witness :
  explorerOf (TransferPage.chainId transferOnFoundry) = None /\
  TransferPage.isConfirmed transferOnFoundry = true /\
  TransferPage.explorerLink transferOnFoundry = None /\
  explorerOf (PermitTokenPage.chainId permitOnFoundry) = None /\
  PermitTokenPage.explorerLink permitOnFoundry = None.
Proof.
  destruct (explorer_base_by_chain_id (Some 31337) transferOnFoundry permitOnFoundry)
    as (_ & _ & _ & _ & Ht & Hp).
  split; [reflexivity|]. split; [reflexivity|].
  split; [apply Ht; reflexivity|].
  split; [reflexivity | apply Hp; reflexivity].
Defined.

Lemma splitSig_components_witness :
  String.length sampleR = 64%nat /\
  String.length sampleS = 64%nat /\
  Js.hexDigit "0" = Some 0 /\
  Js.hexDigit "1" = Some 1 /\
  PermitTokenPage.r (PermitTokenPage.splitSig sampleSignature) = "0x" ++ sampleR /\
  PermitTokenPage.s (PermitTokenPage.splitSig sampleSignature) = "0x" ++ sampleS /\
  PermitTokenPage.v (PermitTokenPage.splitSig sampleSignature) = Js.Num 28.
Proof.
  pose proof (splitSig_components sampleR sampleS "0" "1" 0 1
                eq_refl eq_refl eq_refl eq_refl) as (Hr & Hs & Hv & _).
  split; [reflexivity|]. split; [reflexivity|].
  split; [reflexivity|]. split; [reflexivity|].
  split; [exact Hr|]. split; [exact Hs | exact Hv].
Defined.

Lemma decimals_default_18_witness :
  TransferPage.tokenDecimals transferLoading = TransferPage.Undefined /\
  TransferPage.decimals transferLoading = 18 /\
  TransferPage.amountAsBigInt transferLoading = Some 1500000000000000000 /\
  PermitTokenPage.tokenDecimalsData permitLoading = PermitTokenPage.Undefined /\
  PermitTokenPage.decimals permitLoading = 18 /\
  PermitTokenPage.formattedBankDeposit permitLoading = "0.5 MPT".
Proof.
  destruct (decimals_default_18 transferLoading permitLoading 18) as [Ht Hp].
  destruct (Ht (or_introl (conj eq_refl eq_refl))) as (Hd & Hparse & _).
  destruct (Hp (or_introl (conj eq_refl eq_refl))) as (Hd' & _ & Hformat).
  split; [reflexivity|]. split; [exact Hd|].
  split; [rewrite Hparse; [reflexivity | discriminate]|].
  split; [reflexivity|]. split; [exact Hd'|].
  rewrite (Hformat _ eq_refl). reflexivity.
Defined.

(** C4, as stated, fails on the empty amount: it is given no message on
    either page. *)
Lemma empty_amount_gets_no_message :
  TransferPage.rawAmount transferPristine = "" /\
  TransferPage.amountError transferPristine = "" /\
  TransferPage.shownAmountError transferPristine = None /\
  PermitTokenPage.depositAmount permitPristine = "" /\
  PermitTokenPage.depositAmountError permitPristine = "" /\
  PermitTokenPage.shownDepositAmountError permitPristine = None.
Proof. repeat split. Qed.

Lemma amount_validation_witness :
  TransferPage.rawAmount transferPristine = "" /\
  TransferPage.amountError transferPristine = "" /\
  TransferPage.rawAmount transferReady <> "" /\
  Verdict (Some 1500000000000000000) (Some 2000000000000000000)
    (TransferPage.amountError transferReady) /\
  PermitTokenPage.depositAmount permitPristine = "" /\
  PermitTokenPage.depositAmountError permitPristine = "" /\
  PermitTokenPage.depositAmount permitReady <> "" /\
  Verdict (Some 1500000000000000000) (Some 2000000000000000000)
    (PermitTokenPage.depositAmountError permitReady).
Proof.
  destruct (amount_validation transferPristine permitPristine)
    as (Hte & _ & Hpe & _).
  destruct (amount_validation transferReady permitReady)
    as (_ & Ht & _ & Hp).
  split; [reflexivity|]. split; [apply Hte; reflexivity|].
  split; [discriminate|]. split; [apply Ht; discriminate|].
  split; [reflexivity|]. split; [apply Hpe; reflexivity|].
  split; [discriminate|]. apply Hp; discriminate.
Defined.

Lemma submit_enabled_only_when_valid_witness :
  TransferPage.submitDisabled transferReady = false /\
  TransferPage.amountError transferReady = "" /\
  isAddress (TransferPage.toAddress transferReady) = true /\
  PermitTokenPage.depositDisabled permitReady = false /\
  PermitTokenPage.chainId permitReady = Some 11155111 /\
  PermitTokenPage.depositAmountError permitReady = "".
Proof.
  destruct (submit_enabled_only_when_valid transferReady permitReady) as [Ht Hp].
  destruct (Ht eq_refl) as (_ & _ & Herr & Haddr & _).
  destruct (Hp eq_refl) as (_ & Hchain & _ & Herr' & _).
  split; [reflexivity|]. split; [exact Herr|]. split; [exact Haddr|].
  split; [reflexivity|]. split; [exact Hchain | exact Herr'].
Defined.

(** C7, as stated, fails on the empty recipient: it is not an address, and
    no "Invalid address" message is shown for it. *)
Lemma empty_recipient_gets_no_message :
  TransferPage.toAddress transferPristine = "" /\
  isAddress (TransferPage.toAddress transferPristine) = false /\
  TransferPage.addressError transferPristine = "" /\
  TransferPage.shownAddressError transferPristine = None.
Proof. repeat split. Qed.

Lemma recipient_validation_witness :
  isAddress (TransferPage.toAddress transferBadRecipient) = false /\
  TransferPage.toAddress transferBadRecipient <> "" /\
  TransferPage.submitDisabled transferBadRecipient = true /\
  trace (run (TransferPage.handleTransfer transferBadRecipient) Cooperative) = [] /\
  TransferPage.shownAddressError transferBadRecipient = Some "Invalid address" /\
  isAddress (TransferPage.toAddress transferReady) = true /\
  TransferPage.shownAddressError transferReady = None /\
  TransferPage.toAddress transferPristine = "" /\
  TransferPage.shownAddressError transferPristine = None.
Proof.
  destruct (recipient_validation transferBadRecipient Cooperative)
    as (Hbad & Hshown & _ & _).
  destruct (recipient_validation transferReady Cooperative) as (_ & _ & Hok & _).
  destruct (recipient_validation transferPristine Cooperative)
    as (_ & _ & _ & Hempty).
  split; [reflexivity|]. split; [discriminate|].
  split; [apply Hbad; reflexivity|]. split; [apply Hbad; reflexivity|].
  split; [apply Hshown; [discriminate | reflexivity]|].
  split; [reflexivity|]. split; [apply Hok; reflexivity|].
  split; [reflexivity|]. apply Hempty; reflexivity.
Defined.


Lemma signing_request_content_witness :
  In (ESignTypedData sampleSignRequest (Resolved sampleSignature))
     (trace (run (PermitTokenPage.handleDepositWithPermit permitReady) Cooperative)) /\
  SignTypedData.primaryType sampleSignRequest = "Permit" /\
  TypedData.owner (SignTypedData.message sampleSignRequest) = Some alice /\
  TypedData.version (SignTypedData.domain sampleSignRequest) = "1".
Proof.
  destruct (signing_request_content transferReady permitReady Cooperative)
    as [Hsign _].
  assert (Hin :
    In (ESignTypedData sampleSignRequest (Resolved sampleSignature))
       (trace (run (PermitTokenPage.handleDepositWithPermit permitReady) Cooperative)))
    by (vm_compute; do 3 right; left; reflexivity).
  destruct (Hsign _ _ Hin)
    as (amount & latest & ms & cid & _ & _ & _ & _ & _ & _
        & Hdomain & Hprimary & _ & Hmessage).
  split; [exact Hin|]. split; [exact Hprimary|].
  split; [rewrite Hmessage; reflexivity | rewrite Hdomain; reflexivity].
Defined.

Lemma local_verification_gates_submission_witness :
  In (EWriteContract sampleDepositCall (Resolved sampleTxHash))
     (trace (run (PermitTokenPage.handleDepositWithPermit permitReady) Cooperative)) /\
  (exists p,
     In (EVerifyTypedData p (Resolved true))
        (trace (run (PermitTokenPage.handleDepositWithPermit permitReady) Cooperative)) /\
     VerifyTypedData.address p = Some alice) /\
  In (EVerifyTypedData sampleVerifyRequest (Resolved false))
     (trace (run (PermitTokenPage.handleDepositWithPermit permitReady) WrongSigner)) /\
  existsb isSubmission
    (trace (run (PermitTokenPage.handleDepositWithPermit permitReady) WrongSigner))
    = false.
Proof.
  destruct (local_verification_gates_submission permitReady Cooperative)
    as [Hgate _].
  destruct (local_verification_gates_submission permitReady WrongSigner)
    as [_ Hstop].
  assert (Hin :
    In (EWriteContract sampleDepositCall (Resolved sampleTxHash))
       (trace (run (PermitTokenPage.handleDepositWithPermit permitReady) Cooperative)))
    by (vm_compute; do 6 right; left; reflexivity).
  assert (Hin' :
    In (EVerifyTypedData sampleVerifyRequest (Resolved false))
       (trace (run (PermitTokenPage.handleDepositWithPermit permitReady) WrongSigner)))
    by (vm_compute; do 4 right; left; reflexivity).
  destruct (Hgate _ Hin eq_refl) as (before & p & after & Htrace & Hp & _).
  assert (Hnot : Resolved false <> Resolved true) by discriminate.
  destruct (Hstop _ _ Hin' Hnot) as (Hnone & _).
  split; [exact Hin|]. split.
  - exists p. split; [|exact Hp].
    rewrite Htrace. apply in_or_app. right. left. reflexivity.
  - split; [exact Hin' | exact Hnone].
Defined.

(** C6, as stated, fails on three renders: a submit with an empty amount
    shows no message of any kind; on the permit page an error of the
    receipt hook is not shown while the write hook holds an error, nor
    while the wallet is disconnected. *)
Lemma some_failures_are_not_shown :
  (TransferPage.rawAmount transferPristine = "" /\
   trace (run (TransferPage.handleTransfer transferPristine) Cooperative) = [] /\
   TransferPage.shownAmountError transferPristine = None) /\
  (PermitTokenPage.depositAmount permitPristine = "" /\
   trace (run (PermitTokenPage.handleDepositWithPermit permitPristine) Cooperative)
     = [] /\
   PermitTokenPage.shownDepositAmountError permitPristine = None) /\
  (PermitTokenPage.receiptError (permitFailedReceipt true (Some userRejected))
     = Some receiptTimeout /\
   PermitTokenPage.shownStatus (permitFailedReceipt true (Some userRejected))
     = Some "Status: Transaction Error: User rejected the request.") /\
  (PermitTokenPage.receiptError (permitFailedReceipt false None)
     = Some receiptTimeout /\
   PermitTokenPage.shownStatus (permitFailedReceipt false None) = None).
Proof. vm_compute. repeat split. Qed.

Lemma failures_are_reported_witness :
  In (ESignTypedData sampleSignRequest (Rejected userRejected))
     (trace (run (PermitTokenPage.handleDepositWithPermit permitReady) Declining)) /\
  rejection (ESignTypedData sampleSignRequest (Rejected userRejected))
    = Some userRejected /\
  In (EEffect (alert (Some "User rejected the request.")))
     (trace (run (PermitTokenPage.handleDepositWithPermit permitReady) Declining)) /\
  In (EVerifyTypedData sampleVerifyRequest (Resolved false))
     (trace (run (PermitTokenPage.handleDepositWithPermit permitReady) WrongSigner)) /\
  In (EEffect (alert
        (Some "Local signature verification failed: signer != owner (ERC2612InvalidSigner)")))
     (trace (run (PermitTokenPage.handleDepositWithPermit permitReady) WrongSigner)) /\
  In (EWriteContract (TransferPage.transferCall transferReady 1500000000000000000)
        (Rejected userRejected))
     (trace (run (TransferPage.handleTransfer transferReady) Declining)) /\
  In (EEffect (setStatus "User rejected the request."))
     (trace (run (TransferPage.handleTransfer transferReady) Declining)) /\
  TransferPage.rawAmount transferUnparsable <> "" /\
  parseUnits (TransferPage.rawAmount transferUnparsable)
    (TransferPage.decimals transferUnparsable) = None /\
  TransferPage.shownAmountError transferUnparsable = Some "Invalid amount format" /\
  TransferPage.toAddress transferBadRecipient <> "" /\
  isAddress (TransferPage.toAddress transferBadRecipient) = false /\
  TransferPage.shownAddressError transferBadRecipient = Some "Invalid address" /\
  PermitTokenPage.depositAmount permitUnparsable <> "" /\
  PermitTokenPage.isConnected permitUnparsable = true /\
  PermitTokenPage.shownDepositAmountError permitUnparsable
    = Some "Invalid amount format" /\
  TransferPage.rawAmount transferPristine = "" /\
  trace (run (TransferPage.handleTransfer transferPristine) Cooperative) = [] /\
  PermitTokenPage.depositAmount permitPristine = "" /\
  trace (run (PermitTokenPage.handleDepositWithPermit permitPristine) Cooperative)
    = [] /\
  TransferPage.receiptError transferFailedReceipt = Some receiptTimeout /\
  TransferPage.shownReceiptError transferFailedReceipt
    = Some "Receipt Error: Timed out while waiting for transaction to be confirmed. Version: viem" /\
  PermitTokenPage.receiptError (permitFailedReceipt true None) = Some receiptTimeout /\
  PermitTokenPage.shownStatus (permitFailedReceipt true None)
    = Some "Status: Receipt Error: Timed out while waiting for transaction to be confirmed.".
Proof.
  destruct (failures_are_reported transferReady permitReady Declining)
    as (_ & Hrejected & _ & _ & Htransfer & _).
  destruct (failures_are_reported transferReady permitReady WrongSigner)
    as (_ & _ & Hrefused & _).
  destruct (failures_are_reported transferUnparsable permitUnparsable Cooperative)
    as (_ & _ & _ & _ & _ & Hparse_t & _ & Hparse_p & _).
  destruct (failures_are_reported transferBadRecipient permitReady Cooperative)
    as (_ & _ & _ & _ & _ & _ & Hrecipient & _).
  destruct (failures_are_reported transferPristine permitPristine Cooperative)
    as (_ & _ & _ & _ & _ & _ & _ & _ & Hempty_t & Hempty_p & _).
  destruct (failures_are_reported transferFailedReceipt
              (permitFailedReceipt true None) Cooperative)
    as (_ & _ & _ & _ & _ & _ & _ & _ & _ & _ & Hreceipt_t & Hreceipt_p).
  assert (Hin :
    In (ESignTypedData sampleSignRequest (Rejected userRejected))
       (trace (run (PermitTokenPage.handleDepositWithPermit permitReady) Declining)))
    by (vm_compute; do 3 right; left; reflexivity).
  assert (Hin' :
    In (EVerifyTypedData sampleVerifyRequest (Resolved false))
       (trace (run (PermitTokenPage.handleDepositWithPermit permitReady) WrongSigner)))
    by (vm_compute; do 4 right; left; reflexivity).
  assert (Hin'' :
    In (EWriteContract (TransferPage.transferCall transferReady 1500000000000000000)
          (Rejected userRejected))
       (trace (run (TransferPage.handleTransfer transferReady) Declining)))
    by (vm_compute; right; left; reflexivity).
  destruct (Hrejected _ _ Hin eq_refl) as (before & Htrace & _).
  destruct (Hrefused _ Hin') as (before' & Htrace' & _).
  pose proof (Htransfer _ _ Hin'' eq_refl) as Htrace''.
  assert (Hraw_t : TransferPage.rawAmount transferUnparsable <> "") by discriminate.
  assert (Hnone_t :
    parseUnits (TransferPage.rawAmount transferUnparsable)
      (TransferPage.decimals transferUnparsable) = None)
    by (vm_compute; reflexivity).
  assert (Hraw_p : PermitTokenPage.depositAmount permitUnparsable <> "")
    by discriminate.
  assert (Hnone_p :
    parseUnits (PermitTokenPage.depositAmount permitUnparsable)
      (PermitTokenPage.decimals permitUnparsable) = None)
    by (vm_compute; reflexivity).
  assert (Hto : TransferPage.toAddress transferBadRecipient <> "") by discriminate.
  assert (Hbad : isAddress (TransferPage.toAddress transferBadRecipient) = false)
    by (vm_compute; reflexivity).
  split; [exact Hin|]. split; [reflexivity|].
  split.
  { rewrite Htrace. apply in_or_app. right. right. right. left. reflexivity. }
  split; [exact Hin'|].
  split.
  { rewrite Htrace'. apply in_or_app. right. right. right. left. reflexivity. }
  split; [exact Hin''|].
  split.
  { rewrite Htrace''. right. right. left. reflexivity. }
  split; [exact Hraw_t|]. split; [exact Hnone_t|].
  split; [exact (proj1 (proj2 (Hparse_t Hraw_t Hnone_t)))|].
  split; [exact Hto|]. split; [exact Hbad|].
  split; [exact (proj1 (Hrecipient Hto Hbad))|].
  split; [exact Hraw_p|]. split; [reflexivity|].
  split; [exact (proj2 (proj2 (Hparse_p Hraw_p Hnone_p)) eq_refl)|].
  split; [reflexivity|]. split; [exact (proj2 (Hempty_t eq_refl))|].
  split; [reflexivity|]. split; [exact (proj2 (Hempty_p eq_refl))|].
  split; [reflexivity|]. split; [exact (Hreceipt_t _ eq_refl)|].
  split; [reflexivity|].
  exact (Hreceipt_p _ eq_refl eq_refl eq_refl eq_refl eq_refl).
Defined.

End Instances.

(* ===================================================================== *)
(** * Part III: further properties of the code                             *)
(* ===================================================================== *)

(** ** [splitSig] on arbitrary strings *)

Section SplitSigAnywhere.

Import PermitTokenPage.

Lemma substring_length (s : string) (n m : nat) :
  String.length (substring n m s) = Nat.min m (String.length s - n).
Proof.
  revert n m. induction s as [|c s IH]; intros [|n] [|m]; cbn; try reflexivity.
  - rewrite IH. rewrite Nat.sub_0_r. reflexivity.
  - apply IH.
  - apply IH.
Qed.

Lemma substring_beyond (s : string) (n m : nat) :
  (String.length s <= n)%nat -> substring n m s = "".
Proof.
  intros Hlen. pose proof (substring_length s n m) as Hl.
  replace (String.length s - n)%nat with 0%nat in Hl by lia.
  rewrite Nat.min_0_r in Hl. destruct (substring n m s); [reflexivity | discriminate].
Qed.

Lemma slice_from_length (s : string) (n : nat) :
  String.length (Js.slice_from n s) = (String.length s - n)%nat.
Proof.
  revert s. induction n as [|n IH]; intros [|c s]; cbn; try reflexivity.
  apply IH.
Qed.

Lemma trimEnd_length (s : string) :
  (String.length (Js.trimEnd s) <= String.length s)%nat.
Proof.
  induction s as [|c s IH]; cbn; [lia|].
  destruct (Js.trimEnd s) as [|c' t] eqn:Ht.
  - destruct (Js.isWhiteSpace c); cbn; lia.
  - cbn in *. lia.
Qed.

Lemma hexDigit_range (c : ascii) (d : Z) :
  Js.hexDigit c = Some d -> 0 <= d <= 15.
Proof.
  intros Hd.
  destruct c as [[] [] [] [] [] [] [] []]; cbv in Hd;
    first [discriminate Hd | injection Hd as <-; lia].
Qed.

Lemma Number_0x_byte_range (t : string) :
  (String.length t <= 2)%nat ->
  match Js.Number_0x t with
  | Js.Num n => 0 <= n <= 255
  | Js.NaN => True
  end.
Proof.
  intros Hlen. unfold Js.Number_0x.
  pose proof (trimEnd_length t) as Htrim.
  destruct (Js.trimEnd t) as [|c1 [|c2 [|c3 u]]]; cbn in Htrim;
    [exact I | | | lia].
  - cbn [Js.hexValue]. destruct (Js.hexDigit c1) as [d1|] eqn:H1; [|exact I].
    apply hexDigit_range in H1. lia.
  - cbn [Js.hexValue]. destruct (Js.hexDigit c1) as [d1|] eqn:H1; [|exact I].
    destruct (Js.hexDigit c2) as [d2|] eqn:H2; [|exact I].
    apply hexDigit_range in H1. apply hexDigit_range in H2. lia.
Qed.

Lemma last_byte_slice_length (signature : string) :
  (String.length (Js.slice 128 130 (Js.slice_from 2 signature)) <= 2)%nat.
Proof.
  unfold Js.slice. rewrite substring_length. lia.
Qed.

(** X1. Whatever the string, the [v] that [splitSig] returns is [NaN] or an
    integer from 2 to 255: it fits the [uint8] argument of the contract and
    is never 0 nor 1. *)
Theorem splitSig_v_range (signature : string) :
  match v (splitSig signature) with
  | Js.Num n => 2 <= n <= 255
  | Js.NaN => True
  end.
Proof.
  unfold splitSig. cbn [v].
  pose proof (Number_0x_byte_range _ (last_byte_slice_length signature)) as Hb.
  destruct (Js.Number_0x _) as [n|]; [|exact I].
  destruct (Z.eqb_spec n 0) as [->|H0]; cbn [orb]; [lia|].
  destruct (Z.eqb_spec n 1) as [->|H1]; [lia | lia].
Qed.

(** X2. A signature of at most 130 characters (64 bytes after [0x], or
    fewer) has no last byte: [splitSig] raises nothing and returns [NaN]
    for [v]. *)
Theorem splitSig_short_signature (signature : string) :
  (String.length signature <= 130)%nat ->
  v (splitSig signature) = Js.NaN.
Proof.
  intros Hlen. unfold splitSig. cbn [v]. unfold Js.slice.
  rewrite substring_beyond; [reflexivity|].
  rewrite slice_from_length. lia.
Qed.

(** X3. For every string, [r] and [s] are [0x] followed by what the string
    holds of characters 2 to 65 and 66 to 129: [r] is a full 32-byte word
    from 66 characters on, [s] from 130 characters on, and both are shorter
    below that. *)
Theorem splitSig_word_lengths (signature : string) :
  prefix "0x" (r (splitSig signature)) = true /\
  prefix "0x" (s (splitSig signature)) = true /\
  String.length (r (splitSig signature))
    = (2 + Nat.min 64 (String.length signature - 2))%nat /\
  String.length (s (splitSig signature))
    = (2 + Nat.min 64 (String.length signature - 66))%nat.
Proof.
  unfold splitSig, Js.slice. cbn [r s].
  change (64 - 0)%nat with 64%nat. change (128 - 64)%nat with 64%nat.
  repeat split.
  - cbn. destruct (substring 0 64 _); reflexivity.
  - cbn. destruct (substring 64 64 _); reflexivity.
  - cbn [append String.length]. rewrite substring_length, slice_from_length. lia.
  - cbn [append String.length]. rewrite substring_length, slice_from_length. lia.
Qed.

Lemma splitSig_of_words (R S : string) (c1 c2 : ascii) (d1 d2 : Z) :
  String.length R = 64%nat -> String.length S = 64%nat ->
  Js.hexDigit c1 = Some d1 -> Js.hexDigit c2 = Some d2 ->
  splitSig ("0x" ++ R ++ S ++ String c1 (String c2 "")) =
    {| v := Js.Num (let last := 16 * d1 + d2 in
                    if (last =? 0) || (last =? 1) then last + 27 else last);
       r := "0x" ++ R;
       s := "0x" ++ S |}.
Proof.
  intros HR HS H1 H2. unfold splitSig.
  change (Js.slice_from 2 ("0x" ++ R ++ S ++ String c1 (String c2 "")))
    with (R ++ S ++ String c1 (String c2 "")).
  rewrite (slice_first_word _ _ HR), (slice_second_word _ _ _ HR HS),
    (slice_last_byte _ _ _ _ HR HS), (Number_0x_byte c1 c2 d1 d2 H1 H2).
  cbv zeta. destruct ((16 * d1 + d2 =? 0) || (16 * d1 + d2 =? 1)); reflexivity.
Qed.

Lemma hexDigit_toLowerAscii (c : ascii) :
  Js.hexDigit (Js.toLowerAscii c) = Js.hexDigit c.
Proof.
  destruct c as [[] [] [] [] [] [] [] []]; vm_compute; reflexivity.
Qed.

(** X4. The two encodings of the recovery byte give the same split: a
    signature ending in [00] splits as the one ending in [1b], one ending
    in [01] as the one ending in [1c]; and two last bytes written with
    hexadecimal digits that differ only by the case of their letters give
    the same split. *)
Theorem splitSig_parity_equivalent
  (R S : string) (c1 c2 c1' c2' : ascii) (d1 d2 : Z) :
  String.length R = 64%nat -> String.length S = 64%nat ->
  splitSig ("0x" ++ R ++ S ++ "00") = splitSig ("0x" ++ R ++ S ++ "1b") /\
  splitSig ("0x" ++ R ++ S ++ "01") = splitSig ("0x" ++ R ++ S ++ "1c") /\
  (Js.hexDigit c1 = Some d1 -> Js.hexDigit c2 = Some d2 ->
   Js.toLowerAscii c1' = Js.toLowerAscii c1 ->
   Js.toLowerAscii c2' = Js.toLowerAscii c2 ->
   splitSig ("0x" ++ R ++ S ++ String c1' (String c2' ""))
     = splitSig ("0x" ++ R ++ S ++ String c1 (String c2 ""))).
Proof.
  intros HR HS.
  rewrite (splitSig_of_words R S "0" "0" 0 0 HR HS eq_refl eq_refl).
  rewrite (splitSig_of_words R S "0" "1" 0 1 HR HS eq_refl eq_refl).
  rewrite (splitSig_of_words R S "1" "b" 1 11 HR HS eq_refl eq_refl).
  rewrite (splitSig_of_words R S "1" "c" 1 12 HR HS eq_refl eq_refl).
  split; [reflexivity|]. split; [reflexivity|].
  intros H1 H2 Hcase1 Hcase2.
  assert (H1' : Js.hexDigit c1' = Some d1).
  { rewrite <- (hexDigit_toLowerAscii c1'), Hcase1, hexDigit_toLowerAscii.
    exact H1. }
  assert (H2' : Js.hexDigit c2' = Some d2).
  { rewrite <- (hexDigit_toLowerAscii c2'), Hcase2, hexDigit_toLowerAscii.
    exact H2. }
  rewrite (splitSig_of_words R S c1 c2 d1 d2 HR HS H1 H2).
  rewrite (splitSig_of_words R S c1' c2' d1 d2 HR HS H1' H2').
  reflexivity.
Qed.

End SplitSigAnywhere.

(** ** When the buttons are enabled *)

Section Buttons.
Context {viem : Viem}.

(** X5. The Transfer button is enabled as soon as: an account is connected,
    the chain id is not zero, the amount is not empty and parses to a
    positive value within a loaded balance, the recipient is an address,
    no write is pending and no transaction is being confirmed. *)
Theorem transfer_enabled_when_valid
  (h : TransferPage.Hooks) (account : string) (chain amount : Z) :
  TransferPage.address h = Some account -> account <> "" ->
  TransferPage.chainId h = Some chain -> chain <> 0 ->
  TransferPage.rawAmount h <> "" ->
  parseUnits (TransferPage.rawAmount h) (TransferPage.decimals h) = Some amount ->
  0 < amount ->
  (forall balance, TransferPage.tokenBalance h = Some balance -> amount <= balance) ->
  isAddress (TransferPage.toAddress h) = true ->
  TransferPage.isWritePending h = false ->
  TransferPage.isConfirming h = false ->
  TransferPage.submitDisabled h = false.
Proof.
  intros Haddr Hacc Hchain Hc Hraw Hparse Hpos Hbal Hto Hpend Hconf.
  assert (Hbig : TransferPage.amountAsBigInt h = Some amount).
  { unfold TransferPage.amountAsBigInt.
    destruct (TransferPage.rawAmount h); [contradiction | exact Hparse]. }
  assert (Herr : TransferPage.amountError h = "").
  { rewrite amountError_cases.
    destruct (TransferPage.rawAmount h); [contradiction|].
    rewrite Hparse. destruct (Z.leb_spec amount 0); [lia|].
    destruct (TransferPage.tokenBalance h) as [balance|]; [|reflexivity].
    specialize (Hbal balance eq_refl). rewrite Z.gtb_ltb.
    destruct (Z.ltb_spec balance amount); [lia | reflexivity]. }
  unfold TransferPage.submitDisabled, TransferPage.canSubmit.
  rewrite Haddr, Hchain, Hbig, Herr, Hto, Hpend, Hconf. cbn.
  destruct account; [contradiction|].
  destruct (Z.eqb_spec chain 0); [contradiction|].
  destruct (Z.eqb_spec amount 0); [lia | reflexivity].
Qed.

(** X6. The deposit button is enabled as soon as: the wallet is connected
    on chain 11155111, the amount is not empty and parses to a positive
    value within a loaded balance, no write is pending and no transaction
    is being confirmed. *)
Theorem deposit_enabled_when_valid (h : PermitTokenPage.Hooks) (amount : Z) :
  PermitTokenPage.isConnected h = true ->
  PermitTokenPage.chainId h = Some 11155111 ->
  PermitTokenPage.depositAmount h <> "" ->
  parseUnits (PermitTokenPage.depositAmount h) (PermitTokenPage.decimals h)
    = Some amount ->
  0 < amount ->
  (forall balance, PermitTokenPage.tokenBalanceData h = Some balance ->
                   amount <= PermitTokenPage.value balance) ->
  PermitTokenPage.isWritePending h = false ->
  PermitTokenPage.isConfirming h = false ->
  PermitTokenPage.depositDisabled h = false.
Proof.
  intros Hconn Hchain Hraw Hparse Hpos Hbal Hpend Hconf.
  assert (Hbig : PermitTokenPage.depositAmountBigInt h = Some amount).
  { unfold PermitTokenPage.depositAmountBigInt.
    destruct (PermitTokenPage.depositAmount h); [contradiction | exact Hparse]. }
  assert (Herr : PermitTokenPage.depositAmountError h = "").
  { rewrite depositAmountError_cases.
    destruct (PermitTokenPage.depositAmount h); [contradiction|].
    rewrite Hparse. destruct (Z.leb_spec amount 0); [lia|].
    destruct (PermitTokenPage.tokenBalanceData h) as [balance|]; [|reflexivity].
    specialize (Hbal balance eq_refl). rewrite Z.gtb_ltb.
    destruct (Z.ltb_spec (PermitTokenPage.value balance) amount);
      [lia | reflexivity]. }
  unfold PermitTokenPage.depositDisabled, PermitTokenPage.canDeposit,
    PermitTokenPage.baseGuard, PermitTokenPage.correctNetwork.
  rewrite Hconn, Hchain, Hbig, Herr, Hpend, Hconf. cbn.
  destruct (Z.eqb_spec amount 0); [lia | reflexivity].
Qed.

(** X7. An enabled button carries the name of its action and stands under
    no validation message: "Check Wallet…" and "Processing…" only label a
    disabled button, and the amount and recipient messages only show with
    a disabled button. *)
Theorem enabled_button_is_quiet
  (ht : TransferPage.Hooks) (hp : PermitTokenPage.Hooks) :
  (TransferPage.submitDisabled ht = false ->
   TransferPage.submitLabel ht = "Transfer" /\
   TransferPage.shownAmountError ht = None /\
   TransferPage.shownAddressError ht = None) /\
  (PermitTokenPage.depositDisabled hp = false ->
   PermitTokenPage.depositLabel hp = "Deposit with Permit" /\
   PermitTokenPage.shownDepositAmountError hp = None).
Proof.
  split.
  - unfold TransferPage.submitDisabled, TransferPage.canSubmit.
    intros Hen. apply negb_false_iff in Hen.
    repeat (apply andb_prop in Hen as [Hen ?]).
    repeat match goal with
           | H : negb _ = true |- _ => apply negb_true_iff in H
           end.
    unfold TransferPage.submitLabel, TransferPage.shownAmountError,
      TransferPage.shownAddressError, TransferPage.addressError.
    repeat match goal with H : _ = _ |- _ => rewrite H end.
    destruct (negb _); repeat split.
  - unfold PermitTokenPage.depositDisabled, PermitTokenPage.canDeposit,
      PermitTokenPage.baseGuard.
    intros Hen. apply negb_false_iff in Hen.
    repeat (apply andb_prop in Hen as [Hen ?]).
    repeat match goal with
           | H : negb _ = true |- _ => apply negb_true_iff in H
           end.
    unfold PermitTokenPage.depositLabel, PermitTokenPage.shownDepositAmountError.
    repeat match goal with H : _ = _ |- _ => rewrite H end.
    repeat split.
Qed.

(** ** The Max button *)

(** X8. When [parseUnits] reads back what [formatUnits] wrote for the
    balance, a click on Max fills the amount with a text that parses to
    the whole balance and is never refused for insufficient balance: it
    raises no message for a positive balance, and "Amount must be greater
    than 0" for a balance of zero. *)
Theorem max_fills_the_balance
  (h : TransferPage.Hooks) (balance : Z) (text : string) :
  TransferPage.tokenBalance h = Some balance ->
  formatUnits balance (TransferPage.decimals h) = Some text ->
  text <> "" ->
  parseUnits text (TransferPage.decimals h) = Some balance ->
  TransferPage.handleMax h = TransferPage.MaxSet text /\
  TransferPage.amountAsBigInt (TransferPage.setRawAmount h text) = Some balance /\
  TransferPage.amountError (TransferPage.setRawAmount h text) =
    (if balance <=? 0 then "Amount must be greater than 0" else "").
Proof.
  intros Hbal Hformat Htext Hparse.
  split; [|split].
  - unfold TransferPage.handleMax. rewrite Hbal, Hformat. reflexivity.
  - unfold TransferPage.amountAsBigInt.
    change (TransferPage.rawAmount (TransferPage.setRawAmount h text)) with text.
    change (TransferPage.decimals (TransferPage.setRawAmount h text))
      with (TransferPage.decimals h).
    destruct text; [contradiction | exact Hparse].
  - rewrite amountError_cases.
    change (TransferPage.rawAmount (TransferPage.setRawAmount h text)) with text.
    change (TransferPage.decimals (TransferPage.setRawAmount h text))
      with (TransferPage.decimals h).
    change (TransferPage.tokenBalance (TransferPage.setRawAmount h text))
      with (TransferPage.tokenBalance h).
    destruct text; [contradiction|].
    rewrite Hparse, Hbal. destruct (balance <=? 0); [reflexivity|].
    rewrite Z.gtb_ltb, Z.ltb_irrefl. reflexivity.
Qed.

End Buttons.

(** ** The amount input of the permit page *)

Section AmountInput.

Lemma replaceTrailingDot_cons (c : ascii) (t : string) :
  t <> "" ->
  Js.replaceTrailingDot (String c t) = String c (Js.replaceTrailingDot t).
Proof. destruct t; [contradiction | reflexivity]. Qed.

Lemma replaceTrailingDot_app_dot (w : string) :
  Js.replaceTrailingDot (w ++ ".") = w.
Proof.
  induction w as [|c w IH]; [reflexivity|].
  cbn [append]. rewrite replaceTrailingDot_cons, IH; [reflexivity|].
  destruct w; discriminate.
Qed.

Lemma replaceTrailingDot_changed (s : string) :
  Js.replaceTrailingDot s <> s -> s = Js.replaceTrailingDot s ++ ".".
Proof.
  induction s as [|c t IH]; [contradiction|].
  destruct t as [|c' t'].
  - cbn. destruct (Ascii.eqb_spec c "."%char) as [->|_];
      [reflexivity | contradiction].
  - rewrite replaceTrailingDot_cons by discriminate.
    intros Hneq. cbn [append]. f_equal. apply IH. congruence.
Qed.

Lemma app_dot_differs (w : string) : w <> w ++ ".".
Proof.
  induction w as [|c w IH]; [discriminate|].
  cbn [append]. intros [= Heq]. exact (IH Heq).
Qed.

(** X9. Leaving the amount input updates the amount exactly when the text
    ends with a dot, and then to the text without that one dot; any other
    text is left as it is. *)
Theorem blur_drops_one_final_dot (value w : string) :
  PermitTokenPage.onBlurAmount value = Some w <-> value = w ++ ".".
Proof.
  unfold PermitTokenPage.onBlurAmount. cbv zeta. split.
  - destruct (String.eqb_spec (Js.replaceTrailingDot value) value) as [|Hneq];
      [discriminate|].
    intros [= <-]. apply replaceTrailingDot_changed. exact Hneq.
  - intros ->. rewrite replaceTrailingDot_app_dot.
    destruct (String.eqb_spec w (w ++ ".")) as [Heq|_]; [|reflexivity].
    destruct (app_dot_differs w Heq).
Qed.

End AmountInput.

(** ** What the pages display *)

Section Display.
Context {viem : Viem}.

Lemma trimEnd_app_space (s : string) :
  Js.trimEnd (s ++ " ") = Js.trimEnd s.
Proof.
  induction s as [|c s IH]; [reflexivity|].
  cbn [append Js.trimEnd]. rewrite IH. reflexivity.
Qed.

Lemma trim_app_space (s : string) : Js.trim (s ++ " ") = Js.trim s.
Proof.
  unfold Js.trim. induction s as [|c s IH]; [reflexivity|].
  cbn [append Js.trimStart]. destruct (Js.isWhiteSpace c); [exact IH|].
  apply (trimEnd_app_space (String c s)).
Qed.

(** X10. While the token symbol is missing or empty, the bank deposit is
    displayed as the formatted amount alone, without the space that
    separates it from the symbol. *)
Theorem bank_deposit_without_symbol
  (h : PermitTokenPage.Hooks) (raw : Z) (text : string) :
  PermitTokenPage.bankDepositRaw h = Some raw ->
  formatUnits raw (PermitTokenPage.decimals h) = Some text ->
  PermitTokenPage.tokenSymbol h = None \/ PermitTokenPage.tokenSymbol h = Some "" ->
  PermitTokenPage.formattedBankDeposit h = Js.trim text.
Proof.
  intros Hraw Hformat Hsymbol. unfold PermitTokenPage.formattedBankDeposit.
  rewrite Hraw, Hformat.
  destruct Hsymbol as [-> | ->]; cbn [Js.nullish_or]; apply trim_app_space.
Qed.

Lemma explorerOf_truthy (c : option Z) (base : string) :
  explorerOf c = Some base -> Js.truthy_string base = true.
Proof.
  destruct c as [n|]; [|discriminate]. unfold explorerOf, explorers.
  cbn [find fst snd option_map].
  repeat (destruct (_ =? n); [intros [= <-]; reflexivity|]).
  discriminate.
Qed.

(** X11. The explorer link is rendered exactly for a confirmed transaction
    with a hash on a chain of the table (on the permit page, while the
    wallet is connected as well), and it then points to the explorer of the
    chain followed by [/tx/] and the hash. *)
Theorem explorer_link_rendered
  (ht : TransferPage.Hooks) (hp : PermitTokenPage.Hooks) (url : string) :
  (TransferPage.explorerLink ht = Some url <->
   exists base txHash,
     TransferPage.isConfirmed ht = true /\
     TransferPage.hash ht = Some txHash /\ txHash <> "" /\
     TransferPage.explorerBaseFromChainId (TransferPage.chainId ht) = Some base /\
     url = base ++ "/tx/" ++ txHash) /\
  (PermitTokenPage.explorerLink hp = Some url <->
   exists base txHash,
     PermitTokenPage.isConnected hp = true /\
     PermitTokenPage.isConfirmed hp = true /\
     PermitTokenPage.hash hp = Some txHash /\ txHash <> "" /\
     PermitTokenPage.explorerBaseFromChainId (PermitTokenPage.chainId hp)
       = Some base /\
     url = base ++ "/tx/" ++ txHash).
Proof.
  split.
  - unfold TransferPage.explorerLink, TransferPage.explorerBase. split.
    + destruct (TransferPage.isConfirmed ht); [|discriminate].
      destruct (TransferPage.hash ht) as [[|c tx]|]; try discriminate.
      cbn [andb Js.truthy_ostring Js.truthy_string].
      destruct (TransferPage.explorerBaseFromChainId _) as [base|] eqn:Hbase;
        [|discriminate].
      destruct (Js.truthy_string base); [|discriminate].
      intros [= <-]. exists base, (String c tx).
      repeat split. discriminate.
    + intros (base & tx & -> & -> & Htx & Hbase & ->). rewrite Hbase.
      rewrite transfer_explorer_table in Hbase.
      rewrite (explorerOf_truthy _ _ Hbase).
      destruct tx; [contradiction | reflexivity].
  - unfold PermitTokenPage.explorerLink, PermitTokenPage.statusBlockShown,
      PermitTokenPage.explorerBase. split.
    + destruct (PermitTokenPage.isConnected hp); [|discriminate].
      destruct (PermitTokenPage.isConfirmed hp);
        [|rewrite andb_false_r; discriminate].
      destruct (PermitTokenPage.hash hp) as [[|c tx]|];
        try (rewrite andb_false_r; discriminate).
      destruct (PermitTokenPage.explorerBaseFromChainId _) as [base|] eqn:Hbase;
        [|destruct (_ && _); discriminate].
      destruct (Js.truthy_string base) eqn:Hbase'; [|destruct (_ && _); discriminate].
      destruct (_ && _); [|discriminate].
      intros [= <-]. exists base, (String c tx).
      repeat split. discriminate.
    + intros (base & tx & -> & -> & -> & Htx & Hbase & ->). rewrite Hbase.
      rewrite permit_explorer_table in Hbase.
      cbn [Js.truthy_ostring]. rewrite (explorerOf_truthy _ _ Hbase).
      destruct tx; [contradiction|].
      cbn [andb Js.truthy_string]. rewrite orb_true_r. reflexivity.
Qed.

(** X12. While the wallet is connected, the status block of the permit page
    is rendered exactly when the status text is not empty; it is hidden
    exactly when the wallet is not connected, or nothing is being
    confirmed, nothing is confirmed and neither hook holds an error. The
    explorer link never shows without a status. *)
Theorem status_block_follows_status (h : PermitTokenPage.Hooks) :
  PermitTokenPage.statusBlockShown h
    = PermitTokenPage.isConnected h
      && Js.truthy_string (PermitTokenPage.transactionStatus h) /\
  (PermitTokenPage.statusBlockShown h = false <->
   PermitTokenPage.isConnected h = false \/
   (PermitTokenPage.isConfirming h = false /\
    PermitTokenPage.isConfirmed h = false /\
    PermitTokenPage.writeError h = None /\
    PermitTokenPage.receiptError h = None)).
Proof.
  unfold PermitTokenPage.statusBlockShown, PermitTokenPage.transactionStatus.
  destruct (PermitTokenPage.isConnected h), (PermitTokenPage.isConfirming h),
    (PermitTokenPage.isConfirmed h), (PermitTokenPage.writeError h),
    (PermitTokenPage.receiptError h);
    cbn; (split; [reflexivity|]); split;
    first [ discriminate
          | intros [Hoff | (? & ? & ? & ?)]; discriminate
          | intros _; left; reflexivity
          | intros _; right; repeat split
          | reflexivity ].
Qed.

End Display.

(** ** More on the runs of the handlers *)

Section RunsOfHandlers.
Context {viem : Viem} {W : Type} {env : Wagmi.World W}.

Import Wagmi.

Ltac open_shapes :=
  unfold PermitTokenPage.report, PermitTokenPage.prepared,
    PermitTokenPage.signed, PermitTokenPage.verified,
    PermitTokenPage.simulated in *;
  cbn [app] in *.

Ltac find_event Hin :=
  cbn [In] in Hin;
  repeat (destruct Hin as [Hin | Hin]; [try discriminate Hin|]);
  try contradiction.

(** X13. Every simulated deposit agrees with the permit that was signed in
    the same run: the contract called is the spender of the message, the
    sending account its owner, the amount and the deadline passed are its
    value and its deadline, and [v], [r], [s] are the split of the
    signature the wallet returned for it. *)
Theorem deposit_call_matches_permit (h : PermitTokenPage.Hooks) (w : W) :
  forall call o,
    In (ESimulateContract call o)
       (trace (run (PermitTokenPage.handleDepositWithPermit h) w)) ->
    exists p signature,
      In (ESignTypedData p (Resolved signature))
         (trace (run (PermitTokenPage.handleDepositWithPermit h) w)) /\
      Contract.address call = TypedData.spender (SignTypedData.message p) /\
      Contract.account call = TypedData.owner (SignTypedData.message p) /\
      Contract.abi call = bankAbi /\
      Contract.functionName call = "depositWithPermit" /\
      Contract.args call =
        [ ArgBigInt (TypedData.value (SignTypedData.message p));
          ArgBigInt (TypedData.deadline (SignTypedData.message p));
          ArgNumber (PermitTokenPage.v (PermitTokenPage.splitSig signature));
          ArgString (PermitTokenPage.r (PermitTokenPage.splitSig signature));
          ArgString (PermitTokenPage.s (PermitTokenPage.splitSig signature)) ].
Proof.
  intros call o Hin.
  pose proof (handleDepositWithPermit_runs h w) as Hruns. cbv zeta in Hruns.
  destruct Hruns as [_ [[_ Hnil] | (amount & _ & _ & Hshape)]].
  { rewrite Hnil in Hin. contradiction. }
  destruct Hshape; open_shapes; find_event Hin;
    injection Hin as <- <-;
    eexists _, sig; (split; [cbn [In]; auto 6|]); repeat split.
Qed.

(** X14. One click asks for at most one signature, simulates at most once
    and broadcasts at most once; a transfer broadcasts at most once and
    neither signs nor simulates. *)
Theorem one_request_per_click
  (ht : TransferPage.Hooks) (hp : PermitTokenPage.Hooks) (w : W) :
  let deposit := trace (run (PermitTokenPage.handleDepositWithPermit hp) w) in
  let transfer := trace (run (TransferPage.handleTransfer ht) w) in
  (List.length (filter isSignRequest deposit) <= 1)%nat /\
  (List.length (filter isSimulation deposit) <= 1)%nat /\
  (List.length (filter isBroadcast deposit) <= 1)%nat /\
  (List.length (filter isBroadcast transfer) <= 1)%nat /\
  filter isSignRequest transfer = [] /\
  filter isSimulation transfer = [].
Proof.
  cbv zeta.
  pose proof (handleDepositWithPermit_runs hp w) as Hd. cbv zeta in Hd.
  pose proof (handleTransfer_runs ht w) as Ht. cbv zeta in Ht.
  destruct Hd as [_ [[_ ->] | (amount & _ & _ & Hd)]];
    destruct Ht as [_ [[_ ->] | (amount' & _ & _ & Ht)]];
    try destruct Hd; try destruct Ht; open_shapes; cbn; repeat split; lia.
Qed.

(** X15. The deposit handler only broadcasts what a simulation returned:
    every request it passes to [writeContractAsync] is the request some
    simulation of the same run resolved to. *)
Theorem broadcast_is_simulated (h : PermitTokenPage.Hooks) (w : W) :
  forall request o,
    In (EWriteContract request o)
       (trace (run (PermitTokenPage.handleDepositWithPermit h) w)) ->
    exists call,
      In (ESimulateContract call (Resolved request))
         (trace (run (PermitTokenPage.handleDepositWithPermit h) w)).
Proof.
  intros request o Hin.
  pose proof (handleDepositWithPermit_runs h w) as Hruns. cbv zeta in Hruns.
  destruct Hruns as [_ [[_ Hnil] | (amount & _ & _ & Hshape)]].
  { rewrite Hnil in Hin. contradiction. }
  destruct Hshape; open_shapes; find_event Hin;
    injection Hin as <- <-; eexists; cbn [In]; auto 8.
Qed.

(** X16. On both pages the hash kept for receipt tracking is a hash the
    wallet returned: [setHash] is called with a value exactly when a
    broadcast of the run resolved to that value. *)
Theorem hash_is_the_broadcast_result
  (ht : TransferPage.Hooks) (hp : PermitTokenPage.Hooks) (w : W) (txHash : string) :
  (In (EEffect (setHash txHash))
      (trace (run (PermitTokenPage.handleDepositWithPermit hp) w)) <->
   exists request,
     In (EWriteContract request (Resolved txHash))
        (trace (run (PermitTokenPage.handleDepositWithPermit hp) w))) /\
  (In (EEffect (setHash txHash))
      (trace (run (TransferPage.handleTransfer ht) w)) <->
   exists call,
     In (EWriteContract call (Resolved txHash))
        (trace (run (TransferPage.handleTransfer ht) w))).
Proof.
  pose proof (handleDepositWithPermit_runs hp w) as Hd. cbv zeta in Hd.
  pose proof (handleTransfer_runs ht w) as Ht. cbv zeta in Ht.
  split.
  - destruct Hd as [_ [[_ ->] | (amount & _ & _ & Hd)]].
    { split; [intros [] | intros [? []]]. }
    split.
    + intros Hin. destruct Hd; open_shapes; find_event Hin.
      injection Hin as <-. eexists. cbn [In]. auto 8.
    + intros [request Hin]. destruct Hd; open_shapes; find_event Hin.
      injection Hin as <- <-. cbn [In]. auto 9.
  - destruct Ht as [_ [[_ ->] | (amount & _ & _ & Ht)]].
    { split; [intros [] | intros [? []]]. }
    split.
    + intros Hin. destruct Ht; find_event Hin.
      injection Hin as <-. eexists. cbn [In]. auto.
    + intros [call Hin]. destruct Ht; find_event Hin.
      injection Hin as <- <-. cbn [In]. auto.
Qed.


(** X18. The deadline of every permit the handler asks to sign lies between
    19 minutes 59.001 seconds and 20 minutes after the clock read of the
    same run. *)
Theorem permit_deadline_window (h : PermitTokenPage.Hooks) (w : W) :
  forall p o,
    In (ESignTypedData p o)
       (trace (run (PermitTokenPage.handleDepositWithPermit h) w)) ->
    exists ms,
      In (EDateNow ms)
         (trace (run (PermitTokenPage.handleDepositWithPermit h) w)) /\
      ms + 1199001 <= 1000 * TypedData.deadline (SignTypedData.message p)
        <= ms + 1200000.
Proof.
  intros p o Hin.
  pose proof (handleDepositWithPermit_runs h w) as Hruns. cbv zeta in Hruns.
  destruct Hruns as [_ [[_ Hnil] | (amount & _ & _ & Hshape)]].
  { rewrite Hnil in Hin. contradiction. }
  destruct Hshape; open_shapes; find_event Hin;
    injection Hin as <- <-; exists ms;
    (split; [cbn [In]; auto|]);
    cbn [TypedData.deadline SignTypedData.message
         PermitTokenPage.signParameters PermitTokenPage.permitMessage];
    unfold PermitTokenPage.permitDeadline; cbv zeta;
    pose proof (Z.div_mod ms 1000 ltac:(lia));
    pose proof (Z.mod_pos_bound ms 1000 ltac:(lia)); lia.
Qed.

End RunsOfHandlers.

(** ** The further properties on concrete renders *)

Section FurtherInstances.

Import Wagmi Sample.

Lemma splitSig_short_signature_witness :
  (String.length compactSignature <= 130)%nat /\
  PermitTokenPage.v (PermitTokenPage.splitSig compactSignature) = Js.NaN.
Proof.
  assert (Hlen : (String.length compactSignature <= 130)%nat)
    by (vm_compute; lia).
  split; [exact Hlen | exact (splitSig_short_signature compactSignature Hlen)].
Defined.

Lemma splitSig_parity_equivalent_witness :
  String.length sampleR = 64%nat /\
  String.length sampleS = 64%nat /\
  PermitTokenPage.splitSig ("0x" ++ sampleR ++ sampleS ++ "00")
    = PermitTokenPage.splitSig ("0x" ++ sampleR ++ sampleS ++ "1b") /\
  Js.hexDigit "a" = Some 10 /\ Js.hexDigit "f" = Some 15 /\
  Js.toLowerAscii "A" = Js.toLowerAscii "a" /\
  Js.toLowerAscii "F" = Js.toLowerAscii "f" /\
  PermitTokenPage.splitSig ("0x" ++ sampleR ++ sampleS ++ "AF")
    = PermitTokenPage.splitSig ("0x" ++ sampleR ++ sampleS ++ "af").
Proof.
  destruct (splitSig_parity_equivalent sampleR sampleS "a" "f" "A" "F" 10 15
              eq_refl eq_refl) as (Hzero & _ & Hcase).
  split; [reflexivity|]. split; [reflexivity|]. split; [exact Hzero|].
  split; [reflexivity|]. split; [reflexivity|].
  split; [reflexivity|]. split; [reflexivity|].
  exact (Hcase eq_refl eq_refl eq_refl eq_refl).
Defined.

Lemma transfer_enabled_when_valid_witness :
  TransferPage.submitDisabled transferReady = false.
Proof.
  apply (transfer_enabled_when_valid transferReady alice 11155111
           1500000000000000000).
  - reflexivity.
  - discriminate.
  - reflexivity.
  - discriminate.
  - discriminate.
  - vm_compute. reflexivity.
  - reflexivity.
  - intros balance [= <-]. discriminate.
  - vm_compute. reflexivity.
  - reflexivity.
  - reflexivity.
Defined.

Lemma deposit_enabled_when_valid_witness :
  PermitTokenPage.depositDisabled permitReady = false.
Proof.
  apply (deposit_enabled_when_valid permitReady 1500000000000000000).
  - reflexivity.
  - reflexivity.
  - discriminate.
  - vm_compute. reflexivity.
  - reflexivity.
  - intros balance [= <-]. discriminate.
  - reflexivity.
  - reflexivity.
Defined.

Lemma enabled_button_is_quiet_witness :
  TransferPage.submitDisabled transferReady = false /\
  TransferPage.submitLabel transferReady = "Transfer" /\
  PermitTokenPage.depositDisabled permitReady = false /\
  PermitTokenPage.depositLabel permitReady = "Deposit with Permit".
Proof.
  destruct (enabled_button_is_quiet transferReady permitReady) as [Ht Hp].
  assert (Hon : TransferPage.submitDisabled transferReady = false)
    by (vm_compute; reflexivity).
  assert (Hon' : PermitTokenPage.depositDisabled permitReady = false)
    by (vm_compute; reflexivity).
  split; [exact Hon|]. split; [exact (proj1 (Ht Hon))|].
  split; [exact Hon' | exact (proj1 (Hp Hon'))].
Defined.

Lemma max_fills_the_balance_witness :
  TransferPage.tokenBalance transferReady = Some 2000000000000000000 /\
  formatUnits 2000000000000000000 (TransferPage.decimals transferReady) = Some "2" /\
  parseUnits "2" (TransferPage.decimals transferReady) = Some 2000000000000000000 /\
  TransferPage.handleMax transferReady = TransferPage.MaxSet "2" /\
  TransferPage.amountError (TransferPage.setRawAmount transferReady "2") = "".
Proof.
  assert (Hformat :
    formatUnits 2000000000000000000 (TransferPage.decimals transferReady)
      = Some "2") by (vm_compute; reflexivity).
  assert (Hparse :
    parseUnits "2" (TransferPage.decimals transferReady)
      = Some 2000000000000000000) by (vm_compute; reflexivity).
  assert (Htext : "2" <> "") by discriminate.
  destruct (max_fills_the_balance transferReady 2000000000000000000 "2"
              eq_refl Hformat Htext Hparse) as (Hmax & _ & Herr).
  split; [reflexivity|]. split; [exact Hformat|]. split; [exact Hparse|].
  split; [exact Hmax | exact Herr].
Defined.

Lemma blur_drops_one_final_dot_witness :
  PermitTokenPage.onBlurAmount "1." = Some "1" /\
  PermitTokenPage.onBlurAmount "1.." = Some "1.".
Proof.
  split.
  - apply (proj2 (blur_drops_one_final_dot "1." "1")). reflexivity.
  - apply (proj2 (blur_drops_one_final_dot "1.." "1.")). reflexivity.
Defined.

Lemma bank_deposit_without_symbol_witness :
  PermitTokenPage.bankDepositRaw permitNoSymbol = Some 500000000000000000 /\
  formatUnits 500000000000000000 (PermitTokenPage.decimals permitNoSymbol)
    = Some "0.5" /\
  PermitTokenPage.tokenSymbol permitNoSymbol = None /\
  PermitTokenPage.formattedBankDeposit permitNoSymbol = "0.5".
Proof.
  assert (Hformat :
    formatUnits 500000000000000000 (PermitTokenPage.decimals permitNoSymbol)
      = Some "0.5") by (vm_compute; reflexivity).
  pose proof (bank_deposit_without_symbol permitNoSymbol 500000000000000000
                "0.5" eq_refl Hformat (or_introl eq_refl)) as Hshown.
  split; [reflexivity|]. split; [exact Hformat|]. split; [reflexivity|].
  exact Hshown.
Defined.

Lemma explorer_link_rendered_witness :
  TransferPage.explorerLink transferConfirmed
    = Some ("https://sepolia.etherscan.io" ++ "/tx/" ++ sampleTxHash) /\
  PermitTokenPage.explorerLink permitConfirmed
    = Some ("https://sepolia.etherscan.io" ++ "/tx/" ++ sampleTxHash).
Proof.
  destruct (explorer_link_rendered transferConfirmed permitConfirmed
              ("https://sepolia.etherscan.io" ++ "/tx/" ++ sampleTxHash))
    as [Ht Hp].
  split.
  - apply (proj2 Ht). exists "https://sepolia.etherscan.io", sampleTxHash.
    repeat split. discriminate.
  - apply (proj2 Hp). exists "https://sepolia.etherscan.io", sampleTxHash.
    repeat split. discriminate.
Defined.

Lemma status_block_follows_status_witness :
  PermitTokenPage.statusBlockShown permitReady = false /\
  PermitTokenPage.statusBlockShown permitConfirmed = true.
Proof.
  split.
  - apply (proj2 (proj2 (status_block_follows_status permitReady))).
    right. repeat split.
  - rewrite (proj1 (status_block_follows_status permitConfirmed)). reflexivity.
Defined.

Lemma deposit_call_matches_permit_witness :
  In (ESimulateContract sampleDepositCall (Resolved sampleDepositCall))
     (trace (run (PermitTokenPage.handleDepositWithPermit permitReady) Cooperative)) /\
  Contract.functionName sampleDepositCall = "depositWithPermit" /\
  Contract.abi sampleDepositCall = bankAbi.
Proof.
  assert (Hin :
    In (ESimulateContract sampleDepositCall (Resolved sampleDepositCall))
       (trace (run (PermitTokenPage.handleDepositWithPermit permitReady) Cooperative)))
    by (vm_compute; do 5 right; left; reflexivity).
  destruct (deposit_call_matches_permit permitReady Cooperative _ _ Hin)
    as (p & signature & _ & _ & _ & Habi & Hname & _).
  split; [exact Hin|]. split; [exact Hname | exact Habi].
Defined.

Lemma broadcast_is_simulated_witness :
  In (EWriteContract sampleDepositCall (Resolved sampleTxHash))
     (trace (run (PermitTokenPage.handleDepositWithPermit permitReady) Cooperative)) /\
  exists call,
    In (ESimulateContract call (Resolved sampleDepositCall))
       (trace (run (PermitTokenPage.handleDepositWithPermit permitReady) Cooperative)).
Proof.
  assert (Hin :
    In (EWriteContract sampleDepositCall (Resolved sampleTxHash))
       (trace (run (PermitTokenPage.handleDepositWithPermit permitReady) Cooperative)))
    by (vm_compute; do 6 right; left; reflexivity).
  split; [exact Hin|].
  exact (broadcast_is_simulated permitReady Cooperative _ _ Hin).
Defined.

Lemma hash_is_the_broadcast_result_witness :
  In (EEffect (setHash sampleTxHash))
     (trace (run (PermitTokenPage.handleDepositWithPermit permitReady) Cooperative)) /\
  In (EEffect (setHash sampleTxHash))
     (trace (run (TransferPage.handleTransfer transferReady) Cooperative)).
Proof.
  destruct (hash_is_the_broadcast_result transferReady permitReady Cooperative
              sampleTxHash) as [Hd Ht].
  split.
  - apply (proj2 Hd). exists sampleDepositCall.
    vm_compute. do 6 right. left. reflexivity.
  - apply (proj2 Ht).
    exists (TransferPage.transferCall transferReady 1500000000000000000).
    vm_compute. right. left. reflexivity.
Defined.


Lemma permit_deadline_window_witness :
  In (ESignTypedData sampleSignRequest (Resolved sampleSignature))
     (trace (run (PermitTokenPage.handleDepositWithPermit permitReady) Cooperative)) /\
  exists ms,
    In (EDateNow ms)
       (trace (run (PermitTokenPage.handleDepositWithPermit permitReady) Cooperative)) /\
    ms + 1199001 <= 1000 * 1700001200 <= ms + 1200000.
Proof.
  assert (Hin :
    In (ESignTypedData sampleSignRequest (Resolved sampleSignature))
       (trace (run (PermitTokenPage.handleDepositWithPermit permitReady) Cooperative)))
    by (vm_compute; do 3 right; left; reflexivity).
  split; [exact Hin|].
  exact (permit_deadline_window permitReady Cooperative _ _ Hin).
Defined.

End FurtherInstances.
